(** * SeaShell: the IPA hook pipeline of [seashell/core/hook.py]

    A shallow embedding of the module's functions ([_safe_extract_zip],
    [_sanitize_executable], [Hook.__init__], [Hook.patch_ipa],
    [Hook.get_executable], [Hook.patch_plist]) over a model of the POSIX file system, of the zip
    archives and of the property lists they work on, followed by the
    properties of the patch pipeline.

    Conventions of the model:
    - the platform is POSIX: [os.path.sep] is "/", [os.path.altsep] is [None];
    - the file system is a finite map from path strings to nodes (regular
      files and directories, no symbolic links); a path string names a file
      as the program hands it to the operating system;
    - a file holds raw bytes, a property list or a zip archive: decoding a
      file whose bytes are not of the expected kind is the parse error of
      the library that reads it;
    - every call into the operating system may fail for a reason of the
      environment (disk full, permission denied, I/O error): the world
      carries the outcomes the environment imposes on the successive calls. *)

From stdpp Require Import gmap strings list fin_maps pretty.
From Stdlib Require Import Ascii String ZArith NArith.
From Stdlib.Strings Require Import Byte.

Set Warnings "-register-all".

(** ** Python strings *)

(** [s.startswith(prefix)] *)
Fixpoint startswith (prefix s : string) : bool :=
  match prefix, s with
  | EmptyString, _ => true
  | String a prefix', String b s' => Ascii.eqb a b && startswith prefix' s'
  | String _ _, EmptyString => false
  end.

(** [s.endswith(suffix)] *)
Fixpoint endswith (suffix s : string) : bool :=
  String.eqb s suffix ||
  match s with
  | EmptyString => false
  | String _ s' => endswith suffix s'
  end.

(** [needle in s] on two strings *)
Fixpoint contains (needle s : string) : bool :=
  startswith needle s ||
  match s with
  | EmptyString => false
  | String _ s' => contains needle s'
  end.

(** [s.split(sep)] for a separator of one character *)
Fixpoint split_on (sep : ascii) (s : string) : list string :=
  match s with
  | EmptyString => [EmptyString]
  | String c s' =>
      if Ascii.eqb c sep then EmptyString :: split_on sep s'
      else match split_on sep s' with
           | part :: parts => String c part :: parts
           | [] => [String c EmptyString]
           end
  end.

(** [sep.join(parts)] *)
Fixpoint sep_join (sep : string) (parts : list string) : string :=
  match parts with
  | [] => EmptyString
  | [part] => part
  | part :: parts' => part +:+ sep +:+ sep_join sep parts'
  end.

(** ** [os.path] on POSIX *)

Definition os_path_sep : string := "/".
Definition os_path_altsep : option string := None.

(** [os.path.join(a, b)] *)
Definition os_path_join (a b : string) : string :=
  if startswith "/" b then b
  else if String.eqb a "" || endswith "/" a then a +:+ b
  else a +:+ "/" +:+ b.

(** [os.path.basename(p)]: what follows the last separator *)
Definition os_path_basename (p : string) : string :=
  List.last (split_on "/" p) EmptyString.

(** The components of a path with "", "." and ".." resolved; the stack holds
    the components kept so far, innermost first. *)
Fixpoint resolve_parts (stack parts : list string) : list string :=
  match parts with
  | [] => stack
  | part :: parts' =>
      if String.eqb part "" || String.eqb part "." then resolve_parts stack parts'
      else if String.eqb part ".." then resolve_parts (List.tl stack) parts'
      else resolve_parts (part :: stack) parts'
  end.

(** [os.path.realpath(p)] in a process whose working directory is [cwd], on a
    file system without symbolic links: the absolute path with empty, "."
    and ".." components resolved. *)
Definition os_path_realpath (cwd p : string) : string :=
  "/" +:+ sep_join "/" (List.rev (resolve_parts [] (split_on "/" (os_path_join cwd p)))).

(** ** Property lists and Python values *)

(** The values a property list holds ([plistlib] maps them to [str], [int],
    [bool], [bytes], [list] and [dict]). *)
Inductive plist_value :=
  | VStr (s : string)
  | VInt (z : Z)
  | VBool (b : bool)
  | VData (b : list byte)
  | VArray (items : list plist_value)
  | VDict (fields : gmap string plist_value).

(** [plistlib.FMT_XML] and [plistlib.FMT_BINARY] *)
Inductive plist_format := FMT_XML | FMT_BINARY.

Inductive exn :=
  | RuntimeError (msg : string)
  | TypeError
  | KeyError
  | OSError
  | FileNotFoundError
  | FileExistsError
  | IsADirectoryError
  | NotADirectoryError
  | ShutilError
  | BadZipFile
  | InvalidFileException.

Inductive result (A : Type) :=
  | Ok (a : A)
  | Raise (e : exn).
Arguments Ok {A} a.
Arguments Raise {A} e.

Definition result_bind {A B} (r : result A) (k : A -> result B) : result B :=
  match r with
  | Ok a => k a
  | Raise e => Raise e
  end.

Notation "'let?' x := e 'in' k" := (result_bind e (fun x => k))
  (at level 10, x name, e at level 100, k at level 200).

(** [bool(v)]: the truth value of a Python object *)
Definition py_bool (v : plist_value) : bool :=
  match v with
  | VStr s => negb (String.eqb s "")
  | VInt z => negb (Z.eqb z 0)
  | VBool b => b
  | VData b => match b with [] => false | _ => true end
  | VArray items => match items with [] => false | _ => true end
  | VDict fields => negb (bool_decide (fields = ∅))
  end.

(** [v == s] for a string [s] *)
Definition py_eq_str (v : plist_value) (s : string) : bool :=
  match v with
  | VStr t => String.eqb t s
  | _ => false
  end.

(** [s in v] for a string [s]: substring of a string, element of a list, key
    of a dict; [TypeError] on integers, booleans and bytes. *)
Definition py_in (s : string) (v : plist_value) : result bool :=
  match v with
  | VStr t => Ok (contains s t)
  | VArray items => Ok (existsb (fun item => py_eq_str item s) items)
  | VDict fields => Ok (bool_decide (is_Some (fields !! s)))
  | VInt _ | VBool _ | VData _ => Raise TypeError
  end.

(** [v[key]] *)
Definition py_getitem (v : plist_value) (key : string) : result plist_value :=
  match v with
  | VDict fields =>
      match fields !! key with
      | Some x => Ok x
      | None => Raise KeyError
      end
  | _ => Raise TypeError
  end.

(** [v[key] = x] *)
Definition py_setitem (v : plist_value) (key : string) (x : plist_value)
  : result plist_value :=
  match v with
  | VDict fields => Ok (VDict (<[key := x]> fields))
  | _ => Raise TypeError
  end.

(** ** [_sanitize_executable] (hook.py, lines 49-56) *)

Definition _sanitize_executable (name : plist_value) : result plist_value :=
  if negb (py_bool name) || (py_eq_str name "." || py_eq_str name "..")
  then Ok (VStr "")
  else
    let? has_sep := py_in os_path_sep name in
    let? has_any_sep :=
      (if has_sep then Ok true
       else match os_path_altsep with
            | Some altsep =>
                if negb (String.eqb altsep "") then py_in altsep name else Ok false
            | None => Ok false
            end) in
    if has_any_sep then Ok (VStr "")
    else
      let? has_dots := py_in ".." name in
      if has_dots then Ok (VStr "") else Ok name.

(** ** The file system *)

(** What a file holds. [ZipArchive] lists the members of a zip file in the
    order of its directory: name, permission bits and content; the name of a
    directory member ends with "/". *)
Inductive file_data :=
  | Raw (bytes : list byte)
  | PlistFile (fmt : plist_format) (root : plist_value)
  | ZipArchive (members : list (string * N * file_data)).

Inductive node :=
  | Dir (mode : N)
  | File (data : file_data) (mode : N).

(** The world a call runs in: the file system, and what the environment
    decides: the working directory and umask of the process, the directory
    and the candidate names [tempfile] draws from, and whether each of the
    coming calls into the operating system fails ([true]) or goes through. *)
Record world := World {
  fs : gmap string node;
  cwd : string;
  umask : N;
  tempdir : string;
  tmp_names : list string;
  faults : list bool
}.

Definition with_fs (m : gmap string node) (w : world) : world :=
  World m (cwd w) (umask w) (tempdir w) (tmp_names w) (faults w).

Definition with_tmp_names (names : list string) (w : world) : world :=
  World (fs w) (cwd w) (umask w) (tempdir w) names (faults w).

Definition with_faults (fl : list bool) (w : world) : world :=
  World (fs w) (cwd w) (umask w) (tempdir w) (tmp_names w) fl.

(** Computations that read and write the world and may raise. *)
Definition io (A : Type) : Type := world -> world * result A.

Definition io_ret {A} (a : A) : io A := fun w => (w, Ok a).

Definition io_raise {A} (e : exn) : io A := fun w => (w, Raise e).

Definition io_lift {A} (r : result A) : io A := fun w => (w, r).

Definition io_bind {A B} (c : io A) (k : A -> io B) : io B :=
  fun w =>
    match c w with
    | (w', Ok a) => k a w'
    | (w', Raise e) => (w', Raise e)
    end.

Notation "'let*' x := e 'in' k" := (io_bind e (fun x => k))
  (at level 10, x name, e at level 100, k at level 200).
Notation "e1 >> e2" := (io_bind e1 (fun _ => e2))
  (at level 65, right associativity).

(** [for x in items: body(x)] *)
Fixpoint for_each {A} (items : list A) (body : A -> io unit) : io unit :=
  match items with
  | [] => io_ret tt
  | x :: items' => body x >> for_each items' body
  end.

(** One call into the operating system: the environment lets it through or
    makes it fail. *)
Definition syscall : io unit :=
  fun w =>
    match faults w with
    | [] => (w, Ok tt)
    | false :: rest => (with_faults rest w, Ok tt)
    | true :: rest => (with_faults rest w, Raise OSError)
    end.

(** The pure part of a call: what it does to the file system, or the error
    the state of the file system makes it raise. *)
Definition fs_update (f : gmap string node -> result (gmap string node)) : io unit :=
  fun w =>
    match f (fs w) with
    | Ok m => (with_fs m w, Ok tt)
    | Raise e => (w, Raise e)
    end.

Definition fs_query {A} (f : gmap string node -> result A) : io A :=
  fun w => (w, f (fs w)).

(** [s[n:]] *)
Fixpoint slice_from (n : nat) (s : string) : string :=
  match n, s with
  | O, _ => s
  | S n', String _ s' => slice_from n' s'
  | S _, EmptyString => EmptyString
  end.

(** [key] is the directory [dir] or lies below it. *)
Definition is_within (dir key : string) : bool :=
  String.eqb key dir || startswith (dir +:+ "/") key.

(** The name under which [key] is listed in the directory [dir] (written
    without a trailing separator), when it is one of its entries. *)
Definition entry_name (dir key : string) : option string :=
  if startswith (dir +:+ "/") key then
    let name := slice_from (String.length dir + 1) key in
    if negb (String.eqb name "") && negb (contains "/" name) then Some name
    else None
  else None.

(** The permission bits the module and its libraries name: [0o777],
    [0o700] and [0o666]. *)
Definition o777 : N := 511.
Definition o700 : N := 448.
Definition o666 : N := 438.

(** The permission bits a new file or directory gets: [mode & ~umask]. *)
Definition masked (mode : N) (w : world) : N := N.ldiff mode (umask w).

Definition is_dir (m : gmap string node) (p : string) : bool :=
  match m !! p with
  | Some (Dir _) => true
  | _ => false
  end.

(** [os.path.isdir(p)] and [os.path.exists(p)] *)
Definition os_path_isdir (p : string) : io bool :=
  fs_query (fun m => Ok (is_dir m p)).

Definition os_path_exists (p : string) : io bool :=
  fs_query (fun m => Ok (match m !! p with Some _ => true | None => false end)).

(** [os.path.realpath(p)] *)
Definition realpath (p : string) : io string :=
  fun w => (w, Ok (os_path_realpath (cwd w) p)).

(** The entries of the directory [dir], in the order of the map's keys. *)
Definition dir_entries (m : gmap string node) (dir : string) : list string :=
  omap (entry_name dir) (List.map fst (map_to_list m)).

(** [os.listdir(p)] *)
Definition os_listdir (p : string) : io (list string) :=
  syscall >>
  fs_query (fun m =>
    match m !! p with
    | Some (Dir _) => Ok (dir_entries m p)
    | Some (File _ _) => Raise NotADirectoryError
    | None => Raise FileNotFoundError
    end).

(** [os.mkdir(p, mode)] *)
Definition os_mkdir (p : string) (mode : N) : io unit :=
  syscall >>
  fun w =>
    match fs w !! p with
    | Some _ => (w, Raise FileExistsError)
    | None => (with_fs (<[p := Dir (masked mode w)]> (fs w)) w, Ok tt)
    end.

(** [os.remove(p)] *)
Definition os_remove (p : string) : io unit :=
  syscall >>
  fs_update (fun m =>
    match m !! p with
    | Some (File _ _) => Ok (delete p m)
    | Some (Dir _) => Raise IsADirectoryError
    | None => Raise FileNotFoundError
    end).

(** [os.chmod(p, mode)] *)
Definition os_chmod (p : string) (mode : N) : io unit :=
  syscall >>
  fs_update (fun m =>
    match m !! p with
    | Some (File data _) => Ok (<[p := File data mode]> m)
    | Some (Dir _) => Ok (<[p := Dir mode]> m)
    | None => Raise FileNotFoundError
    end).

(** [open(p, 'rb').read()] *)
Definition open_rb (p : string) : io (file_data * N) :=
  syscall >>
  fs_query (fun m =>
    match m !! p with
    | Some (File data mode) => Ok (data, mode)
    | Some (Dir _) => Raise IsADirectoryError
    | None => Raise FileNotFoundError
    end).

(** [open(p, 'wb').write(data)]: the file is created with the default
    permissions when it is new and keeps its permissions otherwise. The
    directory that holds [p] is taken to exist, as it does at every call of
    this module. *)
Definition open_wb (p : string) (data : file_data) : io unit :=
  syscall >>
  fun w =>
    match fs w !! p with
    | Some (Dir _) => (w, Raise IsADirectoryError)
    | Some (File _ mode) => (with_fs (<[p := File data mode]> (fs w)) w, Ok tt)
    | None => (with_fs (<[p := File data (masked o666 w)]> (fs w)) w, Ok tt)
    end.

(** The subtree at [src] moved to [dst]. *)
Definition move_tree (src dst : string) (m : gmap string node) : gmap string node :=
  list_to_map
    (List.map (fun kn => (dst +:+ slice_from (String.length src) (fst kn), snd kn))
       (map_to_list (filter (fun kn => is_within src (fst kn) = true) m)))
  ∪ filter (fun kn => is_within src (fst kn) = false) m.

(** What [rename(2)] does to the file system. *)
Definition rename_effect (src dst : string) (m : gmap string node)
  : result (gmap string node) :=
  match m !! src with
  | None => Raise FileNotFoundError
  | Some (File data mode) =>
      match m !! dst with
      | Some (Dir _) => Raise IsADirectoryError
      | _ => Ok (<[dst := File data mode]> (delete src m))
      end
  | Some (Dir mode) =>
      if String.eqb src dst then Ok m
      else if startswith (src +:+ "/") dst then Raise OSError
      else match m !! dst with
           | Some (File _ _) => Raise NotADirectoryError
           | Some (Dir _) =>
               if existsb (fun k => startswith (dst +:+ "/") k) (List.map fst (map_to_list m))
               then Raise OSError
               else Ok (move_tree src dst m)
           | None => Ok (move_tree src dst m)
           end
  end.

(** [os.rename(src, dst)] *)
Definition os_rename (src dst : string) : io unit :=
  syscall >> fs_update (rename_effect src dst).

(** ** [shutil] *)

(** [shutil.move(src, dst)]. When [os.rename] fails, [shutil.move] copies the
    source to the destination and deletes the source: one more attempt, with
    the outcome of the rename. *)
Definition shutil_move (src dst : string) : io unit :=
  let* dst_is_dir := os_path_isdir dst in
  let* real_dst :=
    (if dst_is_dir then
       if String.eqb src dst then io_ret dst
       else
         let real_dst := os_path_join dst (os_path_basename src) in
         let* taken := os_path_exists real_dst in
         if taken then io_raise ShutilError else io_ret real_dst
     else io_ret dst) in
  fun w =>
    match os_rename src real_dst w with
    | (w', Ok tt) => (w', Ok tt)
    | (w', Raise _) => (syscall >> fs_update (rename_effect src real_dst)) w'
    end.

(** [shutil.copy(src, dst)]: [copyfile] then [copymode] *)
Definition shutil_copy (src dst : string) : io unit :=
  let* dst_is_dir := os_path_isdir dst in
  let dst := if dst_is_dir then os_path_join dst (os_path_basename src) else dst in
  if String.eqb src dst then io_raise ShutilError
  else
    let* content := open_rb src in
    open_wb dst (fst content) >>
    os_chmod dst (snd content).

(** The members [shutil.make_archive] writes for the tree at
    [root_dir/base_dir]: every directory and file of the tree, named
    relative to [root_dir]. *)
Definition archive_member (root_dir : string) (kn : string * node)
  : string * N * file_data :=
  let arcname := slice_from (String.length root_dir + 1) (fst kn) in
  match snd kn with
  | Dir mode => (arcname +:+ "/", mode, Raw [])
  | File data mode => (arcname, mode, data)
  end.

Definition archive_members (root_dir base_dir : string) (m : gmap string node)
  : list (string * N * file_data) :=
  List.map (archive_member root_dir)
    (List.filter (fun kn => is_within (os_path_join root_dir base_dir) (fst kn))
       (map_to_list m)).

(** [shutil.make_archive(base_name, 'zip', root_dir, base_dir)]: the zip
    file is opened for writing at [base_name + ".zip"], then the tree is
    walked. The directory of [base_name] is taken to exist. *)
Definition shutil_make_archive (base_name root_dir base_dir : string) : io string :=
  let zip_filename := base_name +:+ ".zip" in
  open_wb zip_filename (ZipArchive []) >>
  let* found := os_path_exists (os_path_join root_dir base_dir) in
  if negb found then io_raise FileNotFoundError
  else
    let* members := fs_query (fun m => Ok (archive_members root_dir base_dir m)) in
    open_wb zip_filename (ZipArchive members) >>
    io_ret zip_filename.

(** [shutil.rmtree(dir)], as [tempfile.TemporaryDirectory] runs it on exit *)
Definition rmtree (dir : string) (w : world) : world :=
  with_fs (filter (fun kn => is_within dir (fst kn) = false) (fs w)) w.

(** ** [tempfile] *)

(** [tempfile.mkdtemp()]: the first candidate name that is free. *)
Fixpoint mkdtemp_loop (names : list string) : io string :=
  match names with
  | [] => io_raise FileExistsError
  | name :: names' =>
      fun w =>
        let file := os_path_join (tempdir w) ("tmp" +:+ name) in
        match os_mkdir file o700 (with_tmp_names names' w) with
        | (w', Ok _) => (w', Ok file)
        | (w', Raise FileExistsError) => mkdtemp_loop names' w'
        | (w', Raise e) => (w', Raise e)
        end
  end.

Definition mkdtemp : io string := fun w => mkdtemp_loop (tmp_names w) w.

(** [with tempfile.TemporaryDirectory() as tmp_dir: body]: the directory is
    removed on every way out of the block, by normal return or by an
    exception; its removal is taken to succeed. *)
Definition with_TemporaryDirectory {A} (body : string -> io A) : io A :=
  fun w =>
    match mkdtemp w with
    | (w0, Raise e) => (w0, Raise e)
    | (w0, Ok tmp_dir) =>
        let (w1, r) := body tmp_dir w0 in (rmtree tmp_dir w1, r)
    end.

(** ** [zipfile] *)

(** [zipfile.ZipFile(archive_path)]: the members of the archive *)
Definition ZipFile (archive_path : string) : io (list (string * N * file_data)) :=
  let* content := open_rb archive_path in
  match fst content with
  | ZipArchive members => io_ret members
  | _ => io_raise BadZipFile
  end.

(** [zf.namelist()] *)
Definition namelist (zf : list (string * N * file_data)) : list string :=
  List.map (fun member => fst (fst member)) zf.

(** [os.makedirs]: the directory [dir] and, below it, the chain of
    directories [parts] are created where they are missing. *)
Fixpoint makedirs (dir : string) (parts : list string) : io unit :=
  let* found := fs_query (fun m => Ok (m !! dir)) in
  match found with
  | Some (File _ _) => io_raise NotADirectoryError
  | Some (Dir _) => io_ret tt
  | None => os_mkdir dir o777
  end >>
  match parts with
  | [] => io_ret tt
  | part :: parts' => makedirs (os_path_join dir part) parts'
  end.

(** [ZipFile._extract_member]: the member's name loses its empty, "." and
    ".." components and is joined to the target directory (a name left with
    no component stands for the target directory itself); the directories
    above the target path are created; a directory member creates a
    directory, a file member a file with the member's content. The
    permission bits of the member are not restored. *)
Definition member_parts (filename : string) : list string :=
  List.filter
    (fun x => negb (String.eqb x "" || String.eqb x "." || String.eqb x ".."))
    (split_on "/" filename).

Definition member_target (path filename : string) : string :=
  let arcname := sep_join "/" (member_parts filename) in
  if String.eqb arcname "" then path else os_path_join path arcname.

Definition extract_member (path : string) (member : string * N * file_data) : io unit :=
  let filename := fst (fst member) in
  let targetpath := member_target path filename in
  match member_parts filename with
  | [] => io_ret tt
  | _ :: _ => makedirs path (List.removelast (member_parts filename))
  end >>
  if endswith "/" filename then
    let* is_dir := os_path_isdir targetpath in
    if is_dir then io_ret tt else os_mkdir targetpath o777
  else open_wb targetpath (snd member).

(** [zf.extractall(path)] *)
Definition extractall (zf : list (string * N * file_data)) (path : string) : io unit :=
  for_each zf (extract_member path).

(** ** [_safe_extract_zip] (hook.py, lines 39-46) *)

Definition _safe_extract_zip (archive_path extract_dir : string) : io unit :=
  let* base := realpath extract_dir in
  let* zf := ZipFile archive_path in
  for_each (namelist zf) (fun member =>
    let* target := realpath (os_path_join base member) in
    if negb (startswith (base +:+ os_path_sep) target)
    then io_raise (RuntimeError "Unsafe path in archive")
    else io_ret tt) >>
  extractall zf extract_dir.

(** ** [plistlib] *)

(** [plistlib.load(f)]: the format is detected from the content. *)
Definition plistlib_load (f : file_data) : result plist_value :=
  match f with
  | PlistFile _ root => Ok root
  | _ => Raise InvalidFileException
  end.

(** What [plistlib.dump(value, f)] writes: [fmt] defaults to [FMT_XML]. *)
Definition plistlib_dump (value : plist_value) : file_data :=
  PlistFile FMT_XML value.

(** ** [class Hook] (hook.py, lines 59-160) *)

(** The attributes [__init__] sets: [hash] is the encoded endpoint ("" when
    no host and port are given), [main] and [mussel] are the paths of the
    replacement executable and of the helper binary. *)
Record Hook := {
  hash : string;
  main : string;
  mussel : string
}.


(** [Hook.get_executable] (lines 127-141) *)
Definition get_executable (path : string) : io plist_value :=
  let* f := open_rb path in
  let* plist_data := io_lift (plistlib_load (fst f)) in
  let* present := io_lift (py_in "CFBundleExecutable" plist_data) in
  if present then
    let* name := io_lift (py_getitem plist_data "CFBundleExecutable") in
    io_lift (_sanitize_executable name)
  else io_ret (VStr "").

(** [Hook.patch_plist] (lines 143-160) *)
Definition patch_plist (self : Hook) (path : string) (revert : bool) : io unit :=
  let* f := open_rb path in
  let* plist_data := io_lift (plistlib_load (fst f)) in
  let* plist_data :=
    (if negb revert
     then io_lift (py_setitem plist_data "CFBundleSignature" (VStr (hash self)))
     else io_lift (py_setitem plist_data "CFBundleSignature" (VStr "????"))) in
  open_wb path (plistlib_dump plist_data).

(** [Hook.patch_ipa] (lines 84-125), in two parts. The first part runs from
    the extraction to the second [os.chmod] (lines 94-121); it yields [false]
    where the function returns early and [true] where it goes on. *)
Definition patch_ipa_swap (self : Hook) (path tmp_dir : string) : io bool :=
  _safe_extract_zip path tmp_dir >>
  let payload := os_path_join tmp_dir "Payload" in
  let* payload_is_dir := os_path_isdir payload in
  if negb payload_is_dir then io_ret false
  else
    let* listing := os_listdir payload in
    let app_files := List.filter (fun file => endswith ".app" file) listing in
    match app_files with
    | [] => io_ret false
    | app :: _ =>
        let bundle := os_path_join payload app in
        let plist_path := os_path_join bundle "Info.plist" in
        let* executable := get_executable plist_path in
        if negb (py_bool executable) then io_ret false
        else
          patch_plist self plist_path false >>
          match executable with
          | VStr executable =>
              shutil_move (os_path_join bundle executable)
                          (os_path_join bundle (executable +:+ ".hooked")) >>
              shutil_copy (main self) (os_path_join bundle executable) >>
              shutil_copy (mussel self) (os_path_join bundle "mussel") >>
              os_chmod (os_path_join bundle executable) o777 >>
              os_chmod (os_path_join bundle "mussel") o777 >>
              io_ret true
          | _ => io_raise TypeError
          end
    end.

(** The second part: the archive is deleted and rebuilt (lines 123-125). *)
Definition patch_ipa_repack (path tmp_dir : string) : io unit :=
  os_remove path >>
  let* _ := shutil_make_archive path tmp_dir "Payload" in
  shutil_move (path +:+ ".zip") path.

(** The progress bar [alive_bar] draws has no part in the result. *)
Definition patch_ipa (self : Hook) (path : string) : io unit :=
  with_TemporaryDirectory (fun tmp_dir =>
    let* go_on := patch_ipa_swap self path tmp_dir in
    if go_on then patch_ipa_repack path tmp_dir else io_ret tt).

(** ** Vocabulary of the properties *)

(** *** Names and paths *)

(** [needle] occurs in [s]. *)
Definition has_substring (needle s : string) : Prop :=
  exists before after, s = before +:+ needle +:+ after.

(** The four reasons for which an executable name is refused: it is empty,
    it is "." or "..", it holds a path separator, it holds "..". *)
Definition rejected_name (raw : string) : Prop :=
  raw = "" \/ (raw = "." \/ raw = "..") \/
  has_substring os_path_sep raw \/ has_substring ".." raw.

(** The components of a path. *)
Definition path_parts (p : string) : list string :=
  List.filter (fun part => negb (String.eqb part "")) (split_on "/" p).

(** [p] lies strictly beneath the directory [dir]: the components of [dir],
    then at least one more. *)
Definition strictly_beneath (dir p : string) : Prop :=
  exists rest, rest <> [] /\ path_parts p = path_parts dir ++ rest.

(** Where [_safe_extract_zip] resolves the member [member] to, for the
    target directory [extract_dir]. *)
Definition resolved_destination (w : world) (extract_dir member : string) : string :=
  os_path_realpath (cwd w)
    (os_path_join (os_path_realpath (cwd w) extract_dir) member).

(** The error the specification calls [UnsafeArchiveEntry]. *)
Definition UnsafeArchiveEntry : exn := RuntimeError "Unsafe path in archive".

(** A component as [os.path.realpath] leaves them: not empty, without a
    separator. *)
Definition clean_part (part : string) : Prop :=
  part <> "" /\ contains "/" part = false.

(** A directory to confine to: named, and written without a trailing
    separator. *)
Definition plain_dir (dir : string) : Prop :=
  dir <> "" /\ endswith "/" dir = false.

(** *** The descriptor *)

(** The signature [patch_plist] writes. *)
Definition signature_of (self : Hook) (revert : bool) : string :=
  if revert then "????" else hash self.



(** *** The environment *)

(** The directories above a path: the [d] with [s = d +:+ "/" +:+ r]. *)
Fixpoint ancestors (s : string) : list string :=
  match s with
  | EmptyString => []
  | String c s' =>
      (if Ascii.eqb c "/" then [EmptyString] else [])
      ++ List.map (String c) (ancestors s')
  end.

(** A file system is well formed when whatever lies below a path lies in a
    directory: every path above a node, the root apart, is a directory. *)
Definition fs_wf (m : gmap string node) : Prop :=
  forallb
    (fun kn => forallb (fun d => String.eqb d "" || is_dir m d) (ancestors (fst kn)))
    (map_to_list m) = true.

(** The candidate names of [tempfile] hold no separator. *)
Definition tmp_names_ok (w : world) : Prop :=
  forallb (fun name => negb (contains "/" name)) (tmp_names w) = true.

(** A computation is confined to the directory [dir] when it leaves every
    path outside of [dir] as it was; it also keeps a quiet environment
    quiet. *)
Definition confined {A} (dir : string) (c : io A) : Prop :=
  forall w w' r, c w = (w', r) ->
    (forall q, is_within dir q = false -> fs w' !! q = fs w !! q) /\
    (faults w = [] -> faults w' = []).

(** *** The scratch tree *)

(** The scratch tree under [tmp_dir] holds nothing to patch: no directory
    [Payload]; or no entry of [Payload] that ends in ".app"; or a first such
    entry whose descriptor has no [CFBundleExecutable], or a name that the
    sanitizer refuses, or a value that Python takes for false. *)
Definition no_target (w : world) (tmp_dir : string) : Prop :=
  let payload := os_path_join tmp_dir "Payload" in
  is_dir (fs w) payload = false \/
  (is_dir (fs w) payload = true /\
   List.filter (fun file => endswith ".app" file) (dir_entries (fs w) payload) = []) \/
  (is_dir (fs w) payload = true /\
   exists app rest fmt fields mode,
     List.filter (fun file => endswith ".app" file) (dir_entries (fs w) payload)
       = app :: rest /\
     fs w !! os_path_join (os_path_join payload app) "Info.plist"
       = Some (File (PlistFile fmt (VDict fields)) mode) /\
     (fields !! "CFBundleExecutable" = None \/
      (exists raw, fields !! "CFBundleExecutable" = Some (VStr raw) /\
                   rejected_name raw) \/
      (exists raw, fields !! "CFBundleExecutable" = Some raw /\
                   py_bool raw = false))).

(** The archive [zf] extracts the file [data] to [key] under [dir]: the last
    of its members that is written at [key] is a file member that holds
    [data]. *)
Definition archive_file (zf : list (string * N * file_data)) (dir key : string)
    (data : file_data) : Prop :=
  exists before filename fmode after,
    zf = before ++ (filename, fmode, data) :: after /\
    endswith "/" filename = false /\
    member_target dir filename = key /\
    Forall (fun later => member_target dir (fst (fst later)) <> key) after.

(** The archive [zf], extracted to the scratch tree under [tmp_dir], is a
    well-formed target: [Payload] is a directory and [app] is the first of
    its entries ending in ".app"; the archive holds the descriptor of the
    bundle, a property list whose fields name the executable [name], a name
    the sanitizer accepts; the archive holds the executable, of content
    [original]; the names the pipeline writes are free for it: the
    executable is called neither "Info.plist" nor "mussel" and the bundle
    has no directory called [name + ".hooked"] or "mussel". *)
Definition well_formed_target (zf : list (string * N * file_data)) (w : world)
    (tmp_dir app name : string) (fields : gmap string plist_value)
    (original : file_data) : Prop :=
  let payload := os_path_join tmp_dir "Payload" in
  let bundle := os_path_join payload app in
  is_dir (fs w) payload = true /\
  (exists rest,
     List.filter (fun file => endswith ".app" file) (dir_entries (fs w) payload)
     = app :: rest) /\
  (exists fmt,
     archive_file zf tmp_dir (os_path_join bundle "Info.plist")
       (PlistFile fmt (VDict fields))) /\
  fields !! "CFBundleExecutable" = Some (VStr name) /\
  ~ rejected_name name /\
  archive_file zf tmp_dir (os_path_join bundle name) original /\
  name <> "Info.plist" /\ name <> "mussel" /\
  is_dir (fs w) (os_path_join bundle (name +:+ ".hooked")) = false /\
  is_dir (fs w) (os_path_join bundle "mussel") = false.

(** *** Permission bits *)

(** From [w] to [w'] no permission bit was set at [q]: a directory is as it
    was, a file has the bits it had, and a file that is new has the bits of
    a file created with the default mode. *)
Definition mode_kept (w w' : world) (q : string) : Prop :=
  match fs w !! q with
  | Some (Dir mode) => fs w' !! q = Some (Dir mode)
  | Some (File _ mode) => exists data, fs w' !! q = Some (File data mode)
  | None => forall data mode, fs w' !! q = Some (File data mode) -> mode = masked o666 w
  end.

(** A computation that sets no permission bit (and leaves the umask of the
    process alone). *)
Definition keeps_modes {A} (c : io A) : Prop :=
  forall w w' r, c w = (w', r) ->
    umask w' = umask w /\ forall q, mode_kept w w' q.

(** *** An installation to run the pipeline on *)

(** After the scenario of the specification: the archive [/app.ipa] holds
    [Payload/Demo.app] with its descriptor, in the binary format, and its
    executable [Demo]; a copy of the descriptor lies at [/Info.plist]; the
    binaries to inject are under [/bin]. *)
Definition demo_info : plist_value :=
  VDict (<["CFBundleExecutable" := VStr "Demo"]>
        (<["CFBundleSignature" := VStr "DEMO"]>
        (<["UIDeviceFamily" := VArray [VInt 1; VInt 2]]>
        (<["Icon" := VData [x89; x50]]> ∅)))).

Definition demo_fields : gmap string plist_value :=
  match demo_info with
  | VDict fields => fields
  | _ => ∅
  end.

Definition demo_members : list (string * N * file_data) :=
  [("Payload/", 493%N, Raw []);
   ("Payload/Demo.app/", 493%N, Raw []);
   ("Payload/Demo.app/Info.plist", 420%N, PlistFile FMT_BINARY demo_info);
   ("Payload/Demo.app/Demo", 493%N, Raw [xca; xfe; xba; xbe])].

Definition demo_archive : file_data := ZipArchive demo_members.

(** A descriptor whose executable name points out of the bundle, and an
    archive with a member that leaves the directory it is extracted to. *)
Definition evil_fields : gmap string plist_value :=
  <["CFBundleExecutable" := VStr "../etc/passwd"]> ∅.

Definition evil_archive : file_data :=
  ZipArchive
    [("Payload/Demo.app/Info.plist", 420%N, PlistFile FMT_XML demo_info);
     ("Payload/../../escaped", 420%N, Raw [x00])].

(** An archive that holds no [Payload] directory. *)
Definition plain_archive : file_data :=
  ZipArchive [("docs/", 493%N, Raw []); ("docs/README.txt", 420%N, Raw [x68; x69])].

Definition demo_fs : gmap string node :=
  list_to_map
    [("/", Dir 493); ("/tmp", Dir o777); ("/bin", Dir 493);
     ("/bin/hook", File (Raw [x01; x02]) 420);
     ("/bin/helper", File (Raw [x03]) 420);
     ("/app.ipa", File demo_archive 420);
     ("/Info.plist", File (PlistFile FMT_BINARY demo_info) 420);
     ("/Evil.plist", File (PlistFile FMT_XML (VDict evil_fields)) 420);
     ("/evil.ipa", File evil_archive 420);
     ("/plain.ipa", File plain_archive 420)].

(** The process runs in [/] with umask [0o022]; nothing fails. *)
Definition demo_world : world :=
  {| fs := demo_fs; cwd := "/"; umask := 18; tempdir := "/tmp";
     tmp_names := ["k3x0a9qz"]; faults := [] |}.

Definition demo_hook : Hook :=
  {| hash := "dGNwOi8vMS4yLjMuNDo0NDQ0"; main := "/bin/hook";
     mussel := "/bin/helper" |}.

(** The same installation with a directory in the way of the rebuilt
    archive. *)
Definition blocked_world : world :=
  with_fs (<["/app.ipa.zip" := Dir 493]> demo_fs) demo_world.

(** An archive that holds more than the pipeline looks at: an asset in the
    bundle, a file under the name the pipeline saves the executable to, and
    a file beside [Payload]. *)
Definition rich_members : list (string * N * file_data) :=
  demo_members ++
  [("Payload/Demo.app/Assets.car", 384%N, Raw [x0a; x0b]);
   ("Payload/Demo.app/Demo.hooked", 493%N, Raw [x0d; x0e]);
   ("iTunesMetadata.plist", 420%N, Raw [x3c])].

Definition rich_world : world :=
  with_fs (<["/rich.ipa" := File (ZipArchive rich_members) 420]> demo_fs) demo_world.




(** * Properties *)

(** ** Strings *)

Lemma sapp_nil_l (s : string) : "" +:+ s = s.
Proof. reflexivity. Qed.

Lemma sapp_cons (c : ascii) (a b : string) : String c a +:+ b = String c (a +:+ b).
Proof. reflexivity. Qed.

Ltac str_simpl := rewrite ?sapp_cons, ?sapp_nil_l in *.

Lemma sapp_nil_r (s : string) : s +:+ "" = s.
Proof. induction s as [|c s IH]; str_simpl; [done | by rewrite IH]. Qed.

Lemma sapp_assoc (a b c : string) : (a +:+ b) +:+ c = a +:+ b +:+ c.
Proof. induction a as [|x a IH]; str_simpl; [done | by rewrite IH]. Qed.

Lemma sapp_length (a b : string) :
  String.length (a +:+ b) = String.length a + String.length b.
Proof. induction a as [|x a IH]; str_simpl; simpl; [done | by rewrite IH]. Qed.

Lemma sapp_inv_head (a b c : string) : a +:+ b = a +:+ c -> b = c.
Proof. apply String.app_inj. Qed.

Lemma sapp_eq_self (a b : string) : a = a +:+ b -> b = "".
Proof.
  intros H. apply (f_equal String.length) in H. rewrite sapp_length in H.
  destruct b; simpl in *; [done | lia].
Qed.

Lemma startswith_spec (p s : string) :
  startswith p s = true <-> exists r, s = p +:+ r.
Proof.
  revert s. induction p as [|a p IH]; intros s; simpl.
  - split; [intros _; by exists s | done].
  - destruct s as [|b s].
    + split; [done | intros [r Hr]; discriminate].
    + rewrite andb_true_iff, Ascii.eqb_eq, IH. split.
      * intros [-> [r ->]]. by exists r.
      * intros [r [= -> ->]]. eauto.
Qed.

Lemma startswith_app (p r : string) : startswith p (p +:+ r) = true.
Proof. apply startswith_spec. by exists r. Qed.

Lemma contains_spec (n s : string) : contains n s = true <-> has_substring n s.
Proof.
  unfold has_substring. induction s as [|c s IH].
  - simpl. rewrite orb_false_r, startswith_spec. split.
    + intros [r Hr]. exists "", r. done.
    + intros [a [b H]]. destruct a; str_simpl; [by exists b | discriminate].
  - cbn [contains]. rewrite orb_true_iff, startswith_spec, IH. split.
    + intros [[r Hr] | [a [b H]]].
      * exists "", r. done.
      * exists (String c a), b. str_simpl. by rewrite H.
    + intros [a [b H]]. destruct a as [|x a]; str_simpl.
      * left. by exists b.
      * right. injection H as _ H. by exists a, b.
Qed.

Lemma contains_false (n s : string) : contains n s = false <-> ~ has_substring n s.
Proof. rewrite <- contains_spec. by destruct (contains n s). Qed.

Lemma endswith_spec (suffix s : string) :
  endswith suffix s = true <-> exists r, s = r +:+ suffix.
Proof.
  induction s as [|c s IH]; cbn [endswith]; rewrite orb_true_iff, String.eqb_eq.
  - split.
    + intros [<- | H]; [by exists "" | done].
    + intros [r H]. left. destruct r; str_simpl; [done | discriminate].
  - rewrite IH. split.
    + intros [<- | [r ->]]; [by exists "" | by exists (String c r)].
    + intros [r H]. destruct r as [|x r]; str_simpl; [by left | right].
      injection H as _ H. by exists r.
Qed.

(** ** The sanitizer *)

Lemma sanitize_str (s : string) :
  _sanitize_executable (VStr s) =
  Ok (VStr (if String.eqb s "" || (String.eqb s "." || String.eqb s "..")
               || contains "/" s || contains ".." s
            then "" else s)).
Proof.
  unfold _sanitize_executable, os_path_sep, os_path_altsep. simpl.
  destruct (String.eqb s ""); simpl; [done|].
  destruct (String.eqb s "." || String.eqb s ".."); simpl; [done|].
  destruct (contains "/" s); simpl; [done|].
  by destruct (contains ".." s).
Qed.

Lemma rejected_name_spec (raw : string) :
  String.eqb raw "" || (String.eqb raw "." || String.eqb raw "..")
    || contains "/" raw || contains ".." raw = true
  <-> rejected_name raw.
Proof.
  unfold rejected_name, os_path_sep.
  rewrite !orb_true_iff, !String.eqb_eq, !contains_spec. tauto.
Qed.

Lemma sanitize_rejected (raw : string) :
  rejected_name raw -> _sanitize_executable (VStr raw) = Ok (VStr "").
Proof.
  intros H. apply rejected_name_spec in H. by rewrite sanitize_str, H.
Qed.

Lemma sanitize_accepted (raw : string) :
  ~ rejected_name raw -> _sanitize_executable (VStr raw) = Ok (VStr raw).
Proof.
  intros H. rewrite <- rejected_name_spec in H. rewrite sanitize_str.
  by destruct (_ || _).
Qed.

(** C10: on a string the sanitizer returns the empty string or the string
    itself, so that sanitizing a sanitized name changes nothing. *)
Theorem sanitize_executable_filter (s : string) :
  (_sanitize_executable (VStr s) = Ok (VStr "") \/
   _sanitize_executable (VStr s) = Ok (VStr s)) /\
  (let? once := _sanitize_executable (VStr s) in _sanitize_executable once)
  = _sanitize_executable (VStr s).
Proof.
  rewrite sanitize_str.
  destruct (_ || _) eqn:E; simpl.
  - split; [by left | done].
  - split; [by right |]. by rewrite sanitize_str, E.
Qed.

(** ** Running a computation *)

Lemma bind_ok {A B} (c : io A) (k : A -> io B) w w' a :
  c w = (w', Ok a) -> io_bind c k w = k a w'.
Proof. intros H. unfold io_bind. by rewrite H. Qed.

Lemma bind_raise {A B} (c : io A) (k : A -> io B) w w' e :
  c w = (w', Raise e) -> io_bind c k w = (w', Raise e).
Proof. intros H. unfold io_bind. by rewrite H. Qed.

Lemma with_fs_id w : with_fs (fs w) w = w.
Proof. by destruct w. Qed.

Lemma syscall_quiet w : faults w = [] -> syscall w = (w, Ok tt).
Proof. intros H. unfold syscall. by rewrite H. Qed.

Lemma open_rb_quiet w p data mode :
  faults w = [] -> fs w !! p = Some (File data mode) ->
  open_rb p w = (w, Ok (data, mode)).
Proof.
  intros Hq Hp. unfold open_rb. rewrite (bind_ok _ _ _ _ _ (syscall_quiet w Hq)).
  unfold fs_query. by rewrite Hp.
Qed.


(** ** The metadata tagger *)





Section Tagger.

(** A descriptor, in a quiet environment: the file at [path] is a property
    list, in either format, whose root is a dictionary. *)
Variables (self : Hook) (path : string) (w : world).
Variables (fmt : plist_format) (fields : gmap string plist_value) (mode : N).
Hypothesis quiet : faults w = [].
Hypothesis descriptor :
  fs w !! path = Some (File (PlistFile fmt (VDict fields)) mode).




End Tagger.





(** ** The bundle locator *)

Lemma get_executable_quiet path w fmt fields mode raw :
  faults w = [] ->
  fs w !! path = Some (File (PlistFile fmt (VDict fields)) mode) ->
  fields !! "CFBundleExecutable" = Some raw ->
  get_executable path w = (w, _sanitize_executable raw).
Proof.
  intros Hq Hp Hraw. unfold get_executable.
  rewrite (bind_ok _ _ _ _ _ (open_rb_quiet w path _ _ Hq Hp)). simpl.
  unfold io_bind, io_lift. simpl.
  rewrite bool_decide_true by (rewrite Hraw; eauto).
  by rewrite Hraw.
Qed.

Lemma get_executable_absent path w fmt fields mode :
  faults w = [] ->
  fs w !! path = Some (File (PlistFile fmt (VDict fields)) mode) ->
  fields !! "CFBundleExecutable" = None ->
  get_executable path w = (w, Ok (VStr "")).
Proof.
  intros Hq Hp Hraw. unfold get_executable.
  rewrite (bind_ok _ _ _ _ _ (open_rb_quiet w path _ _ Hq Hp)). simpl.
  unfold io_bind, io_lift. simpl.
  rewrite bool_decide_false; [done|]. rewrite Hraw. by intros [? ?].
Qed.

(** C5: [get_executable] yields the empty name, which the pipeline takes for
    an absent one, when the name in the descriptor is empty, is "." or "..",
    holds a path separator or holds ".."; so it does on the six listed
    names; and the name it yields, when not empty, is the name of the
    descriptor and passes the four checks. *)
Theorem get_executable_sanitized path w fmt fields mode raw :
  faults w = [] ->
  fs w !! path = Some (File (PlistFile fmt (VDict fields)) mode) ->
  fields !! "CFBundleExecutable" = Some (VStr raw) ->
  (rejected_name raw -> get_executable path w = (w, Ok (VStr ""))) /\
  (In raw [""; "."; ".."; "a/b"; "a/../b"; "../etc/passwd"] ->
   get_executable path w = (w, Ok (VStr ""))) /\
  (forall name, get_executable path w = (w, Ok (VStr name)) -> name <> "" ->
   name = raw /\ ~ rejected_name raw).
Proof.
  intros Hq Hp Hraw.
  rewrite (get_executable_quiet path w fmt fields mode (VStr raw) Hq Hp Hraw).
  split; [|split].
  - intros Hrej. by rewrite sanitize_rejected.
  - intros Hin. rewrite sanitize_rejected; [done|].
    apply rejected_name_spec.
    simpl in Hin. by repeat (destruct Hin as [<- | Hin]; [by vm_compute|]).
  - intros name Hname Hne. rewrite sanitize_str in Hname.
    destruct (_ || _) eqn:E; [congruence|].
    split; [congruence|]. rewrite <- rejected_name_spec. by rewrite E.
Qed.

Lemma get_executable_sanitized_witness :
  get_executable "/Evil.plist" demo_world = (demo_world, Ok (VStr "")).
Proof.
  destruct (get_executable_sanitized "/Evil.plist" demo_world FMT_XML evil_fields
              420%N "../etc/passwd") as [Hrejected _]; [reflexivity ..|].
  apply Hrejected. right; right; right. by exists "", "/etc/passwd".
Defined.

(** ** Paths *)

Lemma contains_sep_cons (c : ascii) (s : string) :
  contains "/" (String c s) = Ascii.eqb "/" c || contains "/" s.
Proof. cbn [contains startswith]. by rewrite andb_true_r. Qed.

Lemma split_on_nonempty sep s : split_on sep s <> [].
Proof.
  destruct s as [|c s]; simpl; [done|].
  destruct (Ascii.eqb c sep); [done|]. by destruct (split_on sep s).
Qed.

Lemma split_on_app sep (a b : string) :
  split_on sep (a +:+ String sep b) = split_on sep a ++ split_on sep b.
Proof.
  induction a as [|c a IH]; str_simpl.
  - simpl. by rewrite Ascii.eqb_refl.
  - simpl. rewrite IH. destruct (Ascii.eqb c sep); [done|].
    destruct (split_on sep a) eqn:E; [by apply split_on_nonempty in E | done].
Qed.

Lemma split_on_clean (s : string) :
  contains "/" s = false -> split_on "/" s = [s].
Proof.
  induction s as [|c s IH]; [done|].
  rewrite contains_sep_cons, orb_false_iff. intros [Hc Hs].
  simpl. rewrite Ascii.eqb_sym, Hc. by rewrite IH.
Qed.

Lemma split_on_parts_clean (s part : string) :
  In part (split_on "/" s) -> contains "/" part = false.
Proof.
  revert part. induction s as [|c s IH]; intros part; simpl.
  - by intros [<- | []].
  - destruct (Ascii.eqb c "/") eqn:Ec.
    + intros [<- | H]; [done | by apply IH].
    + destruct (split_on "/" s) as [|p ps] eqn:E;
        [by apply split_on_nonempty in E|].
      intros [<- | H].
      * rewrite contains_sep_cons, Ascii.eqb_sym, Ec. apply IH. by left.
      * apply IH. by right.
Qed.

Lemma split_on_join (parts : list string) :
  parts <> [] -> Forall clean_part parts ->
  split_on "/" (sep_join "/" parts) = parts.
Proof.
  induction parts as [|p ps IH]; [done|]. intros _ Hall.
  apply Forall_cons in Hall as [[_ Hp] Hps].
  destruct ps as [|q qs]; [by apply split_on_clean|].
  change (sep_join "/" (p :: q :: qs)) with (p +:+ "/" +:+ sep_join "/" (q :: qs)).
  change ("/" +:+ sep_join "/" (q :: qs)) with (String "/" (sep_join "/" (q :: qs))).
  rewrite split_on_app, split_on_clean, IH; done.
Qed.

Lemma filter_clean_parts (parts : list string) :
  Forall clean_part parts ->
  List.filter (fun part => negb (String.eqb part "")) parts = parts.
Proof.
  induction 1 as [|p ps [Hp _] _ IH]; [done|]. simpl.
  apply String.eqb_neq in Hp. by rewrite Hp, IH.
Qed.

Lemma path_parts_absolute (parts : list string) :
  Forall clean_part parts -> path_parts ("/" +:+ sep_join "/" parts) = parts.
Proof.
  intros Hall. unfold path_parts.
  change ("/" +:+ sep_join "/" parts) with ("" +:+ String "/" (sep_join "/" parts)).
  rewrite split_on_app. simpl.
  destruct parts as [|p ps]; [done|].
  rewrite split_on_join by done. by apply filter_clean_parts.
Qed.

Lemma path_parts_app (a b : string) :
  path_parts (a +:+ "/" +:+ b) = path_parts a ++ path_parts b.
Proof.
  unfold path_parts. change ("/" +:+ b) with (String "/" b).
  by rewrite split_on_app, List.filter_app.
Qed.

Lemma resolve_parts_clean (stack parts : list string) :
  Forall clean_part stack ->
  (forall part, In part parts -> contains "/" part = false) ->
  Forall clean_part (resolve_parts stack parts).
Proof.
  revert stack. induction parts as [|p ps IH]; intros stack Hstack Hparts; [done|].
  simpl. destruct (String.eqb p "" || String.eqb p ".") eqn:E1.
  - apply IH; [done | intros; apply Hparts; by right].
  - destruct (String.eqb p ".."); apply IH; try (intros; apply Hparts; by right).
    + destruct Hstack; simpl; [by constructor | done].
    + constructor; [|done]. split; [|apply Hparts; by left].
      apply orb_false_iff in E1 as [E1 _]. by apply String.eqb_neq.
Qed.

(** The shape of a resolved path: the root, then clean components. *)
Lemma realpath_shape (cwd p : string) :
  exists parts, Forall clean_part parts /\
    os_path_realpath cwd p = "/" +:+ sep_join "/" parts.
Proof.
  eexists. split; [|reflexivity].
  apply Forall_rev, resolve_parts_clean; [done|].
  intros part. apply split_on_parts_clean.
Qed.

(** The test of [_safe_extract_zip] accepts a resolved destination only if
    it lies strictly beneath the resolved target directory. *)
Lemma startswith_beneath (cwd dir p : string) :
  startswith (os_path_realpath cwd dir +:+ "/") (os_path_realpath cwd p) = true ->
  strictly_beneath (os_path_realpath cwd dir) (os_path_realpath cwd p).
Proof.
  destruct (realpath_shape cwd dir) as (bparts & Hb & ->).
  destruct (realpath_shape cwd p) as (pparts & Hp & ->).
  intros [r Hr]%startswith_spec. rewrite sapp_assoc in Hr.
  exists (path_parts r). split.
  - intros Hnil. pose proof (f_equal path_parts Hr) as Hparts.
    rewrite path_parts_app, Hnil, List.app_nil_r in Hparts.
    rewrite !path_parts_absolute in Hparts by done. subst pparts.
    by apply sapp_eq_self in Hr.
  - by rewrite Hr at 1; rewrite path_parts_app.
Qed.

(** ** The archive guard *)

Lemma open_rb_fs (p : string) w w' r : open_rb p w = (w', r) -> fs w' = fs w /\ cwd w' = cwd w.
Proof.
  unfold open_rb, io_bind, syscall, fs_query.
  destruct (faults w) as [|[] rest]; simpl; by intros [= <- <-].
Qed.

Lemma open_rb_passes (p : string) w data mode :
  head (faults w) <> Some true -> fs w !! p = Some (File data mode) ->
  exists w', open_rb p w = (w', Ok (data, mode)) /\ fs w' = fs w /\ cwd w' = cwd w.
Proof.
  intros Hq Hp. unfold open_rb, io_bind, syscall, fs_query.
  destruct (faults w) as [|[] rest]; simpl in *; [| done |];
    eexists; (split; [by rewrite Hp | done]).
Qed.

(** The pass over the names stops at the first name that resolves out of
    the target directory, and writes nothing. *)
Lemma unsafe_name_raises (base : string) (names : list string) w :
  (exists member, In member names /\
     startswith (base +:+ os_path_sep)
       (os_path_realpath (cwd w) (os_path_join base member)) = false) ->
  for_each names (fun member =>
    let* target := realpath (os_path_join base member) in
    if negb (startswith (base +:+ os_path_sep) target)
    then io_raise (RuntimeError "Unsafe path in archive")
    else io_ret tt) w
  = (w, Raise UnsafeArchiveEntry).
Proof.
  induction names as [|name names IH]; intros (member & Hin & Hout);
    [by destruct Hin|].
  cbn [for_each]. unfold io_bind at 1. unfold io_bind at 1. unfold realpath at 1.
  destruct (startswith _ (os_path_realpath (cwd w) (os_path_join base name))) eqn:E;
    simpl; [|done].
  apply IH. exists member. split; [|done].
  destruct Hin as [-> | Hin]; [congruence | done].
Qed.

(** C1: when a member of the archive resolves to a path that is not
    strictly beneath the resolved target directory, [_safe_extract_zip]
    raises the unsafe-entry error and the file system is as it was: the
    names are all checked before the first member is extracted. *)
Theorem safe_extract_rejects_unsafe_entry archive_path extract_dir w members mode :
  head (faults w) <> Some true ->
  fs w !! archive_path = Some (File (ZipArchive members) mode) ->
  (exists member, In member (namelist members) /\
     ~ strictly_beneath (os_path_realpath (cwd w) extract_dir)
         (resolved_destination w extract_dir member)) ->
  exists w',
    _safe_extract_zip archive_path extract_dir w = (w', Raise UnsafeArchiveEntry) /\
    fs w' = fs w.
Proof.
  intros Hq Hp (member & Hin & Hout).
  destruct (open_rb_passes archive_path w _ _ Hq Hp) as (w' & Hopen & Hfs & Hcwd).
  exists w'. split; [|done].
  unfold _safe_extract_zip. unfold io_bind at 1. unfold realpath at 1.
  unfold ZipFile. unfold io_bind at 1. unfold io_bind at 1. rewrite Hopen. simpl.
  unfold io_ret at 1. erewrite bind_raise; [done|].
  apply unsafe_name_raises. exists member. split; [done|].
  rewrite Hcwd. destruct (startswith _ _) eqn:E; [|done].
  destruct Hout. by apply startswith_beneath.
Qed.

Lemma safe_extract_rejects_unsafe_entry_witness :
  exists w',
    _safe_extract_zip "/evil.ipa" "/tmp/scratch" demo_world
    = (w', Raise UnsafeArchiveEntry) /\
    fs w' = fs demo_world.
Proof.
  eapply (safe_extract_rejects_unsafe_entry "/evil.ipa" "/tmp/scratch" demo_world);
    [discriminate | reflexivity |].
  exists "Payload/../../escaped". split; [right; by left|].
  intros (rest & _ & Hparts). vm_compute in Hparts. discriminate.
Defined.

(** ** Confinement *)

Lemma bind_inv {A B} (c : io A) (k : A -> io B) w w' r :
  io_bind c k w = (w', r) ->
  (exists w1 a, c w = (w1, Ok a) /\ k a w1 = (w', r)) \/
  (exists e, c w = (w', Raise e) /\ r = Raise e).
Proof.
  unfold io_bind. destruct (c w) as [w1 [a|e]]; intros H.
  - left. eauto.
  - right. injection H as <- <-. eauto.
Qed.

Lemma is_within_spec (dir key : string) :
  is_within dir key = true <-> key = dir \/ exists r, key = dir +:+ "/" +:+ r.
Proof.
  unfold is_within. rewrite orb_true_iff, String.eqb_eq, startswith_spec.
  by setoid_rewrite sapp_assoc.
Qed.

Lemma is_within_refl (dir : string) : is_within dir dir = true.
Proof. apply is_within_spec. by left. Qed.

Lemma is_within_trans (dir a key : string) :
  is_within dir a = true -> is_within a key = true -> is_within dir key = true.
Proof.
  rewrite !is_within_spec. intros [-> | [r ->]] [-> | [r' ->]]; eauto.
  right. exists (r +:+ "/" +:+ r'). by rewrite !sapp_assoc.
Qed.

Lemma is_within_neq (dir p q : string) :
  is_within dir p = true -> is_within dir q = false -> p <> q.
Proof. intros Hp Hq ->. congruence. Qed.

Section Confinement.

(** The directory the computations are confined to. *)
Variable dir : string.

Lemma confined_ret {A} (a : A) : confined dir (io_ret a).
Proof. by intros w w' r [= <- <-]. Qed.

Lemma confined_raise {A} e : confined dir (@io_raise A e).
Proof. by intros w w' r [= <- <-]. Qed.

Lemma confined_lift {A} (x : result A) : confined dir (io_lift x).
Proof. by intros w w' r [= <- <-]. Qed.

Lemma confined_fs_query {A} (f : gmap string node -> result A) :
  confined dir (fs_query f).
Proof. by intros w w' r [= <- <-]. Qed.

Lemma confined_realpath p : confined dir (realpath p).
Proof. by intros w w' r [= <- <-]. Qed.

Lemma confined_syscall : confined dir syscall.
Proof.
  intros w w' r. unfold syscall.
  destruct (faults w) as [|[] rest] eqn:E; intros [= <- <-]; (split; [done | congruence]).
Qed.

(** The continuation needs to be confined only on what the first
    computation can yield. *)
Lemma confined_bind_dep {A B} (c : io A) (k : A -> io B) :
  confined dir c ->
  (forall w w' a, c w = (w', Ok a) -> confined dir (k a)) ->
  confined dir (io_bind c k).
Proof.
  intros Hc Hk w w' r [(w1 & a & Hc1 & Hk1) | (e & Hc1 & ->)]%bind_inv.
  - destruct (Hc _ _ _ Hc1) as [Hfs1 Hq1].
    destruct (Hk _ _ _ Hc1 _ _ _ Hk1) as [Hfs2 Hq2]. split.
    + intros q Hout. by rewrite Hfs2, Hfs1.
    + auto.
  - by apply Hc in Hc1.
Qed.

Lemma confined_bind {A B} (c : io A) (k : A -> io B) :
  confined dir c -> (forall a, confined dir (k a)) -> confined dir (io_bind c k).
Proof. intros Hc Hk. apply confined_bind_dep; auto. Qed.

Lemma confined_fs_update f :
  (forall m m', f m = Ok m' ->
     forall q, is_within dir q = false -> m' !! q = m !! q) ->
  confined dir (fs_update f).
Proof.
  intros Hf w w' r. unfold fs_update. destruct (f (fs w)) as [m|e] eqn:E.
  - intros [= <- <-]. split; [|done]. simpl. by eapply Hf.
  - by intros [= <- <-].
Qed.

Lemma confined_for_each {A} (items : list A) (body : A -> io unit) :
  (forall x, In x items -> confined dir (body x)) ->
  confined dir (for_each items body).
Proof.
  induction items as [|x items IH]; intros Hbody; simpl.
  - apply confined_ret.
  - apply confined_bind; [apply Hbody; by left|].
    intros _. apply IH. intros y Hy. apply Hbody. by right.
Qed.

Lemma confined_open_rb p : confined dir (open_rb p).
Proof.
  apply confined_bind; [apply confined_syscall | intros _; apply confined_fs_query].
Qed.

Lemma confined_isdir p : confined dir (os_path_isdir p).
Proof. apply confined_fs_query. Qed.

Lemma confined_exists p : confined dir (os_path_exists p).
Proof. apply confined_fs_query. Qed.

Lemma confined_listdir p : confined dir (os_listdir p).
Proof.
  apply confined_bind; [apply confined_syscall | intros _; apply confined_fs_query].
Qed.

Lemma confined_open_wb p data :
  is_within dir p = true -> confined dir (open_wb p data).
Proof.
  intros Hp. apply confined_bind; [apply confined_syscall|]. intros _ w w' r.
  destruct (fs w !! p) as [[mode|old mode]|]; intros [= <- <-]; (split; [|done]);
    try done; intros q Hq; simpl;
    by rewrite lookup_insert_ne by (by eapply is_within_neq).
Qed.

Lemma confined_mkdir p mode :
  is_within dir p = true -> confined dir (os_mkdir p mode).
Proof.
  intros Hp. apply confined_bind; [apply confined_syscall|]. intros _ w w' r.
  destruct (fs w !! p); intros [= <- <-]; (split; [|done]); try done.
  intros q Hq. simpl. by rewrite lookup_insert_ne by (by eapply is_within_neq).
Qed.

Lemma confined_chmod p mode :
  is_within dir p = true -> confined dir (os_chmod p mode).
Proof.
  intros Hp. apply confined_bind; [apply confined_syscall|]. intros _.
  apply confined_fs_update. intros m m' Hm q Hq.
  destruct (m !! p) as [[?|? ?]|]; simplify_eq;
    by rewrite lookup_insert_ne by (by eapply is_within_neq).
Qed.

Lemma confined_remove p :
  is_within dir p = true -> confined dir (os_remove p).
Proof.
  intros Hp. apply confined_bind; [apply confined_syscall|]. intros _.
  apply confined_fs_update. intros m m' Hm q Hq.
  destruct (m !! p) as [[?|? ?]|]; simplify_eq.
  by rewrite lookup_delete_ne by (by eapply is_within_neq).
Qed.

End Confinement.

Create HintDb confined.

#[global] Hint Resolve confined_ret confined_raise confined_lift confined_fs_query
  confined_realpath confined_syscall confined_open_rb confined_isdir
  confined_exists confined_listdir : confined.

(** One step of a computation whose first call is confined whatever its
    arguments are. *)
Ltac confined_step :=
  apply confined_bind; [solve [auto with confined] | intros ?].

Lemma startswith_sep_contains (s : string) :
  startswith "/" s = true -> contains "/" s = true.
Proof. destruct s; simpl; [done|]. by intros ->. Qed.

Lemma within_join (dir a b : string) :
  plain_dir dir -> is_within dir a = true -> startswith "/" b = false ->
  is_within dir (os_path_join a b) = true.
Proof.
  intros [Hne Hslash] Ha Hb. unfold os_path_join. rewrite Hb.
  apply is_within_spec. right. apply is_within_spec in Ha as [-> | [r ->]].
  - apply String.eqb_neq in Hne. rewrite Hne, Hslash. simpl. eauto.
  - destruct (_ || _); rewrite !sapp_assoc; eauto.
Qed.

Lemma within_join_clean (dir a b : string) :
  plain_dir dir -> is_within dir a = true -> contains "/" b = false ->
  is_within dir (os_path_join a b) = true.
Proof.
  intros Hdir Ha Hb. apply within_join; [done..|].
  destruct (startswith "/" b) eqn:E; [|done].
  apply startswith_sep_contains in E. congruence.
Qed.

Lemma basename_clean (p : string) : contains "/" (os_path_basename p) = false.
Proof.
  unfold os_path_basename.
  destruct (split_on "/" p) as [|x l] eqn:E; [by apply split_on_nonempty in E|].
  apply (split_on_parts_clean p). rewrite E.
  change (In (List.last (x :: l) "") (x :: l)).
  clear E. revert x. induction l as [|y l IH]; intros x; [by left|].
  right. apply IH.
Qed.

Lemma list_to_map_lookup_None {A} (l : list (string * A)) (q : string) :
  (forall kn, In kn l -> fst kn <> q) ->
  (list_to_map l : gmap string A) !! q = None.
Proof.
  induction l as [|[k x] l IH]; intros Hl; simpl; [apply lookup_empty|].
  rewrite lookup_insert_ne; [|apply (Hl (k, x)); by left].
  apply IH. intros kn Hkn. apply Hl. by right.
Qed.

Lemma filter_lookup_keep (P : string -> bool) (m : gmap string node) (q : string) :
  P q = false ->
  filter (fun kn => P (fst kn) = false) m !! q = m !! q.
Proof.
  intros Hq. apply option_eq. intros x.
  rewrite map_lookup_filter_Some. simpl. tauto.
Qed.

Lemma filter_lookup_drop (P : string -> bool) (m : gmap string node) (q : string) :
  P q = true ->
  filter (fun kn => P (fst kn) = false) m !! q = None.
Proof.
  intros Hq. apply map_lookup_filter_None. right. intros x _. simpl. congruence.
Qed.

Lemma slice_from_app (a b : string) : slice_from (String.length a) (a +:+ b) = b.
Proof. induction a as [|c a IH]; str_simpl; simpl; [by destruct b | done]. Qed.

Lemma move_tree_outside (dir src dst : string) (m : gmap string node) (q : string) :
  is_within dir src = true -> is_within dir dst = true ->
  is_within dir q = false ->
  move_tree src dst m !! q = m !! q.
Proof.
  intros Hsrc Hdst Hq. unfold move_tree.
  rewrite lookup_union_r.
  - apply (filter_lookup_keep (is_within src)).
    destruct (is_within src q) eqn:E; [|done].
    by rewrite (is_within_trans dir src q) in Hq.
  - apply list_to_map_lookup_None. intros kn [[k n] [<- Hk]]%in_map_iff. simpl.
    apply list_elem_of_In, elem_of_map_to_list, map_lookup_filter_Some in Hk
      as [_ Hk]. simpl in Hk.
    apply (is_within_neq dir); [|done].
    apply (is_within_trans dir dst); [done|].
    apply is_within_spec. apply is_within_spec in Hk as [-> | [r ->]].
    + left. rewrite <- (sapp_nil_r src) at 2. by rewrite slice_from_app, sapp_nil_r.
    + right. exists r. by rewrite slice_from_app.
Qed.

Lemma rename_effect_outside (dir src dst : string) m m' (q : string) :
  is_within dir src = true -> is_within dir dst = true ->
  rename_effect src dst m = Ok m' ->
  is_within dir q = false -> m' !! q = m !! q.
Proof.
  intros Hsrc Hdst Hm Hq. unfold rename_effect in Hm.
  destruct (m !! src) as [[mode|data mode]|]; [| |done].
  - destruct (String.eqb src dst); [by simplify_eq|].
    destruct (startswith _ dst); [done|].
    destruct (m !! dst) as [[?|? ?]|]; [|done|].
    + destruct (existsb _ _); [done|]. simplify_eq.
      by apply (move_tree_outside dir).
    + simplify_eq. by apply (move_tree_outside dir).
  - assert (m' = <[dst := File data mode]> (delete src m)) as ->
      by (destruct (m !! dst) as [[?|? ?]|]; by simplify_eq).
    rewrite lookup_insert_ne by (by eapply is_within_neq).
    by rewrite lookup_delete_ne by (by eapply is_within_neq).
Qed.

Lemma confined_rename dir src dst :
  is_within dir src = true -> is_within dir dst = true ->
  confined dir (os_rename src dst).
Proof.
  intros Hsrc Hdst. apply confined_bind; [apply confined_syscall|]. intros _.
  apply confined_fs_update. intros m m' Hm q Hq.
  by apply (rename_effect_outside dir src dst m m').
Qed.

Lemma confined_move dir src dst :
  plain_dir dir -> is_within dir src = true -> is_within dir dst = true ->
  confined dir (shutil_move src dst).
Proof.
  intros Hdir Hsrc Hdst. unfold shutil_move.
  apply confined_bind; [apply confined_isdir|]. intros dst_is_dir.
  assert (forall real_dst, is_within dir real_dst = true ->
            confined dir (fun w =>
              match os_rename src real_dst w with
              | (w', Ok tt) => (w', Ok tt)
              | (w', Raise _) => (syscall >> fs_update (rename_effect src real_dst)) w'
              end)) as Hretry.
  { intros real_dst Hreal w w' r.
    destruct (os_rename src real_dst w) as [w1 [[]|e]] eqn:E.
    - intros [= <- <-]. exact (confined_rename dir src real_dst Hsrc Hreal _ _ _ E).
    - intros Hagain.
      destruct (confined_rename dir src real_dst Hsrc Hreal _ _ _ E) as [Hfs1 Hq1].
      destruct (confined_rename dir src real_dst Hsrc Hreal _ _ _ Hagain)
        as [Hfs2 Hq2].
      split; [|auto]. intros q Hq. by rewrite Hfs2, Hfs1. }
  apply confined_bind_dep.
  - destruct dst_is_dir; [|apply confined_ret].
    destruct (String.eqb src dst); [apply confined_ret|].
    apply confined_bind; [apply confined_exists|].
    intros []; [apply confined_raise | apply confined_ret].
  - intros w w' real_dst Hreal. apply Hretry.
    destruct dst_is_dir; [|by injection Hreal as _ <-].
    destruct (String.eqb src dst); [by injection Hreal as _ <-|].
    apply bind_inv in Hreal as [(w1 & taken & _ & Hreal) | (e & _ & [=])].
    destruct taken; [done|]. injection Hreal as _ <-.
    apply within_join_clean; [done..|apply basename_clean].
Qed.

Lemma confined_copy dir src dst :
  plain_dir dir -> is_within dir dst = true -> confined dir (shutil_copy src dst).
Proof.
  intros Hdir Hdst. unfold shutil_copy.
  apply confined_bind; [apply confined_isdir|]. intros dst_is_dir.
  set (real := if dst_is_dir then _ else _).
  assert (is_within dir real = true) as Hreal.
  { subst real. destruct dst_is_dir; [|done].
    apply within_join_clean; [done..|apply basename_clean]. }
  destruct (String.eqb src real); [apply confined_raise|].
  apply confined_bind; [apply confined_open_rb|]. intros content.
  apply confined_bind; [by apply confined_open_wb|]. intros _.
  by apply confined_chmod.
Qed.

Lemma confined_makedirs dir d parts :
  plain_dir dir -> is_within dir d = true ->
  (forall part, In part parts -> contains "/" part = false) ->
  confined dir (makedirs d parts).
Proof.
  intros Hdir. revert d. induction parts as [|part parts IH]; intros d Hd Hparts;
    cbn [makedirs]; (apply confined_bind; [apply confined_fs_query|]);
    intros found; (apply confined_bind;
      [destruct found as [[?|? ?]|];
         [apply confined_ret | apply confined_raise | by apply confined_mkdir]|]);
    intros _.
  - apply confined_ret.
  - apply IH.
    + apply within_join_clean; [done..|]. apply Hparts. by left.
    + intros p Hp. apply Hparts. by right.
Qed.

Lemma in_removelast {A} (l : list A) (x : A) : In x (List.removelast l) -> In x l.
Proof.
  induction l as [|a l IH]; [done|]. simpl. destruct l; [done|].
  intros [<- | H]; [by left | right; auto].
Qed.

Lemma startswith_sep_app (p r : string) :
  p <> "" -> startswith "/" (p +:+ r) = startswith "/" p.
Proof. destruct p; [done | by str_simpl]. Qed.

Lemma startswith_sep_join (parts : list string) :
  Forall clean_part parts -> startswith "/" (sep_join "/" parts) = false.
Proof.
  intros [|p ps [Hne Hclean] _]; [done|].
  assert (startswith "/" p = false) as Hp.
  { destruct (startswith "/" p) eqn:E; [|done].
    apply startswith_sep_contains in E. congruence. }
  destruct ps as [|q qs]; [done|].
  change (sep_join "/" (p :: q :: qs)) with (p +:+ "/" +:+ sep_join "/" (q :: qs)).
  by rewrite startswith_sep_app.
Qed.

Lemma member_parts_clean (filename : string) :
  Forall clean_part (member_parts filename).
Proof.
  apply Forall_forall. intros part [Hin Hkeep]%list_elem_of_In%filter_In. split.
  - intros ->. done.
  - by apply (split_on_parts_clean filename).
Qed.

Lemma member_target_within dir filename :
  plain_dir dir -> is_within dir (member_target dir filename) = true.
Proof.
  intros Hdir. unfold member_target.
  destruct (String.eqb _ ""); [apply is_within_refl|].
  apply within_join; [done | apply is_within_refl|].
  apply startswith_sep_join, member_parts_clean.
Qed.

Lemma confined_extract_member dir member :
  plain_dir dir -> confined dir (extract_member dir member).
Proof.
  intros Hdir. unfold extract_member.
  pose proof (member_parts_clean (fst (fst member))) as Hparts.
  pose proof (member_target_within dir (fst (fst member)) Hdir) as Htarget.
  apply confined_bind.
  - destruct (member_parts _) as [|part0 parts0] eqn:E; [apply confined_ret|].
    rewrite <- E in *.
    apply confined_makedirs; [done | apply is_within_refl|].
    intros part Hin%in_removelast%list_elem_of_In.
    by apply (proj1 (Forall_forall _ _) Hparts) in Hin as [_ ?].
  - intros _. destruct (endswith "/" _).
    + apply confined_bind; [apply confined_isdir|].
      intros []; [apply confined_ret | by apply confined_mkdir].
    + by apply confined_open_wb.
Qed.

Lemma confined_ZipFile dir archive_path : confined dir (ZipFile archive_path).
Proof.
  unfold ZipFile. confined_step.
  match goal with content : file_data * N |- _ => destruct content as [[] ?] end;
    simpl; auto with confined.
Qed.

#[global] Hint Resolve confined_ZipFile : confined.

Lemma confined_safe_extract dir archive_path :
  plain_dir dir -> confined dir (_safe_extract_zip archive_path dir).
Proof.
  intros Hdir. unfold _safe_extract_zip. do 2 confined_step.
  apply confined_bind.
  - apply confined_for_each. intros member _. confined_step.
    destruct (negb _); auto with confined.
  - intros _. apply confined_for_each. intros member _.
    by apply confined_extract_member.
Qed.

Lemma confined_get_executable dir path : confined dir (get_executable path).
Proof.
  unfold get_executable. do 3 confined_step.
  match goal with present : bool |- _ => destruct present end;
    [confined_step|]; auto with confined.
Qed.

Lemma confined_patch_plist dir self path revert :
  is_within dir path = true -> confined dir (patch_plist self path revert).
Proof.
  intros Hpath. unfold patch_plist. do 2 confined_step.
  apply confined_bind; [destruct (negb revert); auto with confined|].
  intros plist_data'. by apply confined_open_wb.
Qed.

Lemma contains_sep_app (a b : string) :
  contains "/" (a +:+ b) = contains "/" a || contains "/" b.
Proof.
  induction a as [|c a IH]; str_simpl; [done|].
  by rewrite !contains_sep_cons, IH, orb_assoc.
Qed.

Lemma entry_name_inv (dir key name : string) :
  entry_name dir key = Some name ->
  key = dir +:+ "/" +:+ name /\ name <> "" /\ contains "/" name = false.
Proof.
  unfold entry_name. destruct (startswith _ key) eqn:E; [|done].
  apply startswith_spec in E as [r ->].
  replace (String.length dir + 1) with (String.length (dir +:+ "/"))
    by (rewrite sapp_length; simpl; lia).
  rewrite slice_from_app.
  destruct (String.eqb r "") eqn:Er; [done|]. destruct (contains "/" r) eqn:Ec; [done|].
  intros [= <-]. rewrite sapp_assoc. by apply String.eqb_neq in Er.
Qed.

Lemma dir_entries_inv (m : gmap string node) (dir name : string) :
  In name (dir_entries m dir) ->
  is_Some (m !! (dir +:+ "/" +:+ name)) /\ name <> "" /\ contains "/" name = false.
Proof.
  unfold dir_entries.
  intros (key & Hkey & Hname)%list_elem_of_In%list_elem_of_omap.
  apply entry_name_inv in Hname as (-> & Hne & Hclean). split; [|done].
  apply list_elem_of_In, in_map_iff in Hkey as ([k n] & Hk & Hin). simpl in Hk. subst k.
  apply list_elem_of_In, elem_of_map_to_list in Hin. eauto.
Qed.

Lemma os_listdir_inv p w w' listing :
  os_listdir p w = (w', Ok listing) ->
  fs w' = fs w /\ listing = dir_entries (fs w) p /\ is_dir (fs w) p = true.
Proof.
  unfold os_listdir. intros [(w1 & [] & Hsys & Hq) | (e & _ & [=])]%bind_inv.
  assert (fs w1 = fs w) as Hfs.
  { unfold syscall in Hsys. destruct (faults w) as [|[] ?]; by simplify_eq. }
  unfold fs_query, is_dir in *. rewrite Hfs in Hq.
  destruct (fs w !! p) as [[?|? ?]|]; by simplify_eq.
Qed.

(** What the sanitizer lets through as a name is a name that passes the
    four checks. *)
Lemma sanitize_output (raw : plist_value) (name : string) :
  _sanitize_executable raw = Ok (VStr name) -> name <> "" ->
  raw = VStr name /\ ~ rejected_name name.
Proof.
  destruct raw as [s| | | | |];
    try (unfold _sanitize_executable; simpl;
         repeat (match goal with |- context [if ?b then _ else _] => destruct b end;
                 simpl); congruence).
  rewrite sanitize_str. destruct (_ || _) eqn:E; [congruence|].
  intros [= <-] _. split; [done|]. rewrite <- rejected_name_spec. by rewrite E.
Qed.

Lemma get_executable_inv path w w' v :
  get_executable path w = (w', Ok v) ->
  fs w' = fs w /\
  (v = VStr "" \/ exists raw, _sanitize_executable raw = Ok v).
Proof.
  unfold get_executable.
  intros [(w1 & f & Hopen & H) | (e & _ & [=])]%bind_inv.
  apply open_rb_fs in Hopen as [Hfs _].
  unfold io_bind, io_lift, io_ret in H.
  destruct (plistlib_load (fst f)) as [plist_data|]; [|done].
  destruct (py_in _ plist_data) as [[]|]; [| |done].
  - destruct (py_getitem _ _) as [raw|]; [|done]. simplify_eq. eauto.
  - simplify_eq. eauto.
Qed.

Lemma accepted_name_clean (name : string) :
  ~ rejected_name name -> name <> "" /\ contains "/" name = false.
Proof.
  intros H. split; [intros ->; apply H; by left|].
  apply contains_false. intros Hsep. apply H. right; right; by left.
Qed.

Lemma confined_patch_ipa_swap self path tmp_dir :
  plain_dir tmp_dir -> confined tmp_dir (patch_ipa_swap self path tmp_dir).
Proof.
  intros Hdir. unfold patch_ipa_swap.
  apply confined_bind; [by apply confined_safe_extract|]. intros _.
  assert (is_within tmp_dir (os_path_join tmp_dir "Payload") = true) as Hpayload
    by (by apply within_join_clean; [| apply is_within_refl |]).
  apply confined_bind; [apply confined_isdir|].
  intros []; simpl; [|apply confined_ret].
  apply confined_bind_dep; [apply confined_listdir|].
  intros w w' listing (_ & -> & _)%os_listdir_inv.
  destruct (List.filter _ _) as [|app rest] eqn:Eapp; [apply confined_ret|].
  assert (In app (dir_entries (fs w) (os_path_join tmp_dir "Payload"))) as Happ.
  { eapply (proj1 (filter_In _ _ _)). rewrite Eapp. by left. }
  apply dir_entries_inv in Happ as (_ & _ & Happ).
  assert (is_within tmp_dir (os_path_join (os_path_join tmp_dir "Payload") app) = true)
    as Hbundle by (by apply within_join_clean).
  apply confined_bind_dep; [apply confined_get_executable|].
  intros w2 w2' executable [_ Hexe]%get_executable_inv.
  destruct (py_bool executable) eqn:Etruth; simpl; [|apply confined_ret].
  apply confined_bind; [by apply confined_patch_plist, within_join_clean|].
  intros _. destruct executable as [name| | | | |]; try apply confined_raise.
  assert (name <> "" /\ contains "/" name = false) as [Hne Hclean].
  { destruct Hexe as [[= ->] | [raw Hraw]]; [done|].
    assert (name <> "") as Hne by (intros ->; done).
    by apply sanitize_output, proj2, accepted_name_clean in Hraw. }
  assert (is_within tmp_dir
            (os_path_join (os_path_join (os_path_join tmp_dir "Payload") app) name)
          = true) as Hexecutable by (by apply within_join_clean).
  assert (is_within tmp_dir
            (os_path_join (os_path_join (os_path_join tmp_dir "Payload") app) "mussel")
          = true) as Hmussel by (by apply within_join_clean).
  apply confined_bind.
  { apply confined_move; [done..|]. apply within_join_clean; [done..|].
    by rewrite contains_sep_app, Hclean. }
  intros _. apply confined_bind; [by apply confined_copy|].
  intros _. apply confined_bind; [by apply confined_copy|].
  intros _. apply confined_bind; [by apply confined_chmod|].
  intros _. apply confined_bind; [by apply confined_chmod|].
  intros _. apply confined_ret.
Qed.

(** ** The scratch directory *)

Lemma endswith_sep_contains (s : string) :
  endswith "/" s = true -> contains "/" s = true.
Proof.
  induction s as [|c s IH]; [done|].
  cbn [endswith]. rewrite contains_sep_cons, !orb_true_iff, String.eqb_eq.
  intros [[= -> ->] | H]; [by left | right; auto].
Qed.

Lemma endswith_app (a b : string) :
  b <> "" -> endswith "/" (a +:+ b) = endswith "/" b.
Proof.
  intros Hb. induction a as [|c a IH]; str_simpl; [done|].
  cbn [endswith]. rewrite IH.
  destruct (String.eqb_spec (String c (a +:+ b)) "/") as [[= _ H]|_]; [|done].
  destruct a, b; done.
Qed.

Lemma plain_join (a name : string) :
  contains "/" name = false -> plain_dir (os_path_join a ("tmp" +:+ name)).
Proof.
  intros Hname.
  assert (contains "/" ("tmp" +:+ name) = false) as Hclean
    by (by rewrite contains_sep_app, Hname).
  assert ("tmp" +:+ name <> "") as Hne by done.
  assert (exists prefix, os_path_join a ("tmp" +:+ name) = prefix +:+ "tmp" +:+ name)
    as [prefix ->].
  { unfold os_path_join. change (startswith "/" ("tmp" +:+ name)) with false.
    destruct (_ || _); [by exists a|]. exists (a +:+ "/"). by rewrite !sapp_assoc. }
  split.
  - destruct prefix; done.
  - rewrite endswith_app by done.
    destruct (endswith "/" ("tmp" +:+ name)) eqn:E; [|done].
    apply endswith_sep_contains in E. congruence.
Qed.

(** [mkdtemp] either raises and leaves the file system as it was, or makes
    one new directory at a path that was free. *)
Lemma mkdtemp_loop_inv names w w' r :
  forallb (fun name => negb (contains "/" name)) names = true ->
  mkdtemp_loop names w = (w', r) ->
  (faults w = [] -> faults w' = []) /\
  ((exists e, r = Raise e /\ fs w' = fs w) \/
   (exists tmp_dir mode, r = Ok tmp_dir /\ plain_dir tmp_dir /\
      fs w !! tmp_dir = None /\ fs w' = <[tmp_dir := Dir mode]> (fs w))).
Proof.
  revert w. induction names as [|name names IH]; intros w Hnames; simpl.
  - intros [= <- <-]. split; [done|]. left. eauto.
  - simpl in Hnames. apply andb_true_iff in Hnames as [Hname Hnames].
    apply negb_true_iff in Hname.
    unfold os_mkdir, io_bind, syscall. simpl.
    destruct (faults w) as [|[] rest] eqn:Eq; simpl.
    + destruct (fs w !! _) eqn:Efree.
      * intros H. apply IH in H as [Hq H]; [|done]. split; [by auto|]. done.
      * intros [= <- <-]. split; [done|]. right. eexists _, _.
        split; [done|]. split; [by apply plain_join|]. done.
    + intros [= <- <-]. split; [congruence|]. left. eauto.
    + destruct (fs w !! _) eqn:Efree.
      * intros H. apply IH in H as [Hq H]; [|done]. split; [congruence|]. done.
      * intros [= <- <-]. split; [congruence|]. right. eexists _, _.
        split; [done|]. split; [by apply plain_join|]. done.
Qed.

Lemma mkdtemp_inv w w' r :
  tmp_names_ok w -> mkdtemp w = (w', r) ->
  (faults w = [] -> faults w' = []) /\
  ((exists e, r = Raise e /\ fs w' = fs w) \/
   (exists tmp_dir mode, r = Ok tmp_dir /\ plain_dir tmp_dir /\
      fs w !! tmp_dir = None /\ fs w' = <[tmp_dir := Dir mode]> (fs w))).
Proof. intros Hnames. by apply mkdtemp_loop_inv. Qed.

Lemma ancestors_spec (s d : string) :
  In d (ancestors s) <-> exists r, s = d +:+ "/" +:+ r.
Proof.
  revert d. induction s as [|c s IH]; intros d; simpl.
  - split; [done|]. intros [r H]. destruct d; discriminate.
  - rewrite in_app_iff, in_map_iff. split.
    + intros [Hroot | (d' & <- & [r ->]%IH)].
      * destruct (Ascii.eqb_spec c "/") as [->|]; [|done].
        destruct Hroot as [<- | []]. by exists s.
      * by exists r.
    + intros [r H]. destruct d as [|x d]; str_simpl.
      * injection H as -> ->. left. rewrite Ascii.eqb_refl. by left.
      * injection H as -> ->. right. exists d. split; [done|]. apply IH. eauto.
Qed.

Lemma fs_wf_spec (m : gmap string node) (d r : string) :
  fs_wf m -> d <> "" -> is_Some (m !! (d +:+ "/" +:+ r)) -> is_dir m d = true.
Proof.
  intros Hwf Hd [n Hn]. unfold fs_wf in Hwf. rewrite forallb_forall in Hwf.
  apply elem_of_map_to_list, list_elem_of_In, Hwf in Hn. simpl in Hn.
  rewrite forallb_forall in Hn.
  specialize (Hn d (proj2 (ancestors_spec _ _) (ex_intro _ r eq_refl))).
  apply orb_true_iff in Hn as [Hn%String.eqb_eq | Hn]; done.
Qed.

(** Nothing lies in a directory that does not exist. *)
Lemma free_path_empty (m : gmap string node) (dir q : string) :
  fs_wf m -> dir <> "" -> m !! dir = None ->
  is_within dir q = true -> m !! q = None.
Proof.
  intros Hwf Hdir Hfree [-> | [r ->]]%is_within_spec; [done|].
  destruct (m !! (dir +:+ "/" +:+ r)) as [n|] eqn:E; [|done].
  assert (is_dir m dir = true) as Hd by (apply (fs_wf_spec m dir r); eauto).
  unfold is_dir in Hd. by rewrite Hfree in Hd.
Qed.

(** Removing the scratch directory undoes whatever a computation confined to
    it did. *)
Lemma rmtree_restores w w0 w1 tmp_dir mode :
  fs_wf (fs w) -> tmp_dir <> "" -> fs w !! tmp_dir = None ->
  fs w0 = <[tmp_dir := Dir mode]> (fs w) ->
  (forall q, is_within tmp_dir q = false -> fs w1 !! q = fs w0 !! q) ->
  fs (rmtree tmp_dir w1) = fs w.
Proof.
  intros Hwf Hdir Hfree Hw0 Hout. apply map_eq. intros q. simpl.
  destruct (is_within tmp_dir q) eqn:E.
  - rewrite (filter_lookup_drop (is_within tmp_dir)) by done.
    symmetry. by apply (free_path_empty _ tmp_dir).
  - rewrite (filter_lookup_keep (is_within tmp_dir)) by done.
    rewrite Hout, Hw0 by done. apply lookup_insert_ne.
    intros ->. by rewrite is_within_refl in E.
Qed.

Lemma rmtree_outside w tmp_dir q :
  is_within tmp_dir q = false -> fs (rmtree tmp_dir w) !! q = fs w !! q.
Proof. intros Hq. simpl. by apply (filter_lookup_keep (is_within tmp_dir)). Qed.

(** ** The pipeline: failures and runs without a target *)

Lemma isdir_run p w : os_path_isdir p w = (w, Ok (is_dir (fs w) p)).
Proof. done. Qed.

Lemma os_listdir_quiet p w :
  faults w = [] -> is_dir (fs w) p = true ->
  os_listdir p w = (w, Ok (dir_entries (fs w) p)).
Proof.
  intros Hq Hp. unfold os_listdir.
  rewrite (bind_ok _ _ _ _ _ (syscall_quiet w Hq)). unfold fs_query, is_dir in *.
  by destruct (fs w !! p) as [[?|? ?]|].
Qed.

(** C6: when the pipeline fails before it deletes the archive, in creating
    the scratch directory or at any step from the extraction to the second
    [chmod], the error reaches the caller and the file system, the archive
    with it, is as it was before the call. *)
Theorem patch_ipa_failure_before_delete self path w :
  fs_wf (fs w) -> tmp_names_ok w ->
  (forall w0 e, mkdtemp w = (w0, Raise e) ->
     patch_ipa self path w = (w0, Raise e) /\
     fs w0 !! path = fs w !! path /\ fs w0 = fs w) /\
  (forall w0 tmp_dir w1 e,
     mkdtemp w = (w0, Ok tmp_dir) ->
     patch_ipa_swap self path tmp_dir w0 = (w1, Raise e) ->
     exists w', patch_ipa self path w = (w', Raise e) /\
       fs w' !! path = fs w !! path /\ fs w' = fs w).
Proof.
  intros Hwf Hnames. split.
  - intros w0 e Hmk. unfold patch_ipa, with_TemporaryDirectory. rewrite Hmk.
    apply mkdtemp_inv in Hmk as [_ [(e' & _ & Hfs) | (? & ? & [=] & _)]]; [|done].
    by rewrite Hfs.
  - intros w0 tmp_dir w1 e Hmk Hswap.
    exists (rmtree tmp_dir w1).
    assert (fs (rmtree tmp_dir w1) = fs w) as Hfs.
    { apply mkdtemp_inv in Hmk
        as [_ [(? & [=] & _) | (? & mode & [= <-] & Hplain & Hfree & Hw0)]];
        [|done].
      apply (rmtree_restores w w0 w1 tmp_dir mode); [done | apply Hplain | done..|].
      by apply (confined_patch_ipa_swap self path tmp_dir Hplain _ _ _ Hswap). }
    split; [|by rewrite Hfs].
    unfold patch_ipa, with_TemporaryDirectory. rewrite Hmk.
    by rewrite (bind_raise _ _ _ _ _ Hswap).
Qed.

Lemma patch_ipa_failure_before_delete_witness :
  exists w',
    patch_ipa demo_hook "/evil.ipa" demo_world = (w', Raise UnsafeArchiveEntry) /\
    fs w' !! "/evil.ipa" = fs demo_world !! "/evil.ipa" /\ fs w' = fs demo_world.
Proof.
  destruct (patch_ipa_failure_before_delete demo_hook "/evil.ipa" demo_world)
    as [_ Hswap]; [by vm_compute ..|].
  apply (Hswap (fst (mkdtemp demo_world)) "/tmp/tmpk3x0a9qz"
           (fst (patch_ipa_swap demo_hook "/evil.ipa" "/tmp/tmpk3x0a9qz"
                   (fst (mkdtemp demo_world))))
           UnsafeArchiveEntry); by vm_compute.
Defined.

(** C3: when the extracted archive has no directory [Payload], or [Payload]
    has no entry ending in ".app", or the descriptor of the bundle gives no
    usable executable name, [patch_ipa] returns normally and leaves the file
    system, the archive with it, as it was. *)
Theorem patch_ipa_noop self path w w0 tmp_dir w1 :
  faults w = [] -> fs_wf (fs w) -> tmp_names_ok w ->
  mkdtemp w = (w0, Ok tmp_dir) ->
  _safe_extract_zip path tmp_dir w0 = (w1, Ok tt) ->
  no_target w1 tmp_dir ->
  exists w', patch_ipa self path w = (w', Ok tt) /\
    fs w' !! path = fs w !! path /\ fs w' = fs w.
Proof.
  intros Hq Hwf Hnames Hmk Hextract Hnone.
  pose proof Hmk as Hmk'. apply mkdtemp_inv in Hmk'
    as [Hq0 [(? & [=] & _) | (? & mode & [= <-] & Hplain & Hfree & Hw0)]]; [|done].
  destruct (confined_safe_extract tmp_dir path Hplain _ _ _ Hextract) as [Hout Hq1].
  specialize (Hq1 (Hq0 Hq)).
  assert (patch_ipa_swap self path tmp_dir w0 = (w1, Ok false)) as Hswap.
  { unfold patch_ipa_swap. rewrite (bind_ok _ _ _ _ _ Hextract).
    rewrite (bind_ok _ _ _ _ _ (isdir_run _ w1)).
    destruct Hnone as [-> | [[Hdir Hnone] | [Hdir Hnone]]]; [done|..]; rewrite Hdir; simpl.
    - rewrite (bind_ok _ _ _ _ _ (os_listdir_quiet _ w1 Hq1 Hdir)). by rewrite Hnone.
    - destruct Hnone as (app & rest & fmt & fields & pmode & Happ & Hplist & Hname).
      rewrite (bind_ok _ _ _ _ _ (os_listdir_quiet _ w1 Hq1 Hdir)). rewrite Happ.
      assert (get_executable
                (os_path_join (os_path_join (os_path_join tmp_dir "Payload") app)
                   "Info.plist") w1 = (w1, Ok (VStr ""))) as Hexe.
      { destruct Hname as [Hname | [(raw & Hname & Hrej) | (raw & Hname & Hfalse)]].
        - by eapply get_executable_absent.
        - erewrite get_executable_quiet by done. by rewrite sanitize_rejected.
        - erewrite get_executable_quiet by done.
          unfold _sanitize_executable. by rewrite Hfalse. }
      by rewrite (bind_ok _ _ _ _ _ Hexe). }
  exists (rmtree tmp_dir w1).
  assert (fs (rmtree tmp_dir w1) = fs w) as Hfs
    by (apply (rmtree_restores w w0 w1 tmp_dir mode); [done | apply Hplain | done..]).
  split; [|by rewrite Hfs].
  unfold patch_ipa, with_TemporaryDirectory. rewrite Hmk.
  by rewrite (bind_ok _ _ _ _ _ Hswap).
Qed.

Lemma patch_ipa_noop_witness :
  exists w', patch_ipa demo_hook "/plain.ipa" demo_world = (w', Ok tt) /\
    fs w' !! "/plain.ipa" = fs demo_world !! "/plain.ipa" /\ fs w' = fs demo_world.
Proof.
  apply (patch_ipa_noop demo_hook "/plain.ipa" demo_world
           (fst (mkdtemp demo_world)) "/tmp/tmpk3x0a9qz"
           (fst (_safe_extract_zip "/plain.ipa" "/tmp/tmpk3x0a9qz"
                   (fst (mkdtemp demo_world)))));
    try by vm_compute.
  left. by vm_compute.
Defined.

(** ** What a call that went through has done *)

Lemma syscall_fs w w' r : syscall w = (w', r) -> fs w' = fs w.
Proof. unfold syscall. destruct (faults w) as [|[] ?]; by intros [= <- <-]. Qed.

Lemma sys_update_inv f w w' :
  (syscall >> fs_update f) w = (w', Ok tt) -> f (fs w) = Ok (fs w').
Proof.
  intros [(w1 & [] & Hsys%syscall_fs & Hf) | (e & _ & [=])]%bind_inv.
  unfold fs_update in Hf. rewrite Hsys in Hf.
  destruct (f (fs w)); by simplify_eq.
Qed.

Lemma sys_update_raise f w w' e :
  (syscall >> fs_update f) w = (w', Raise e) -> fs w' = fs w.
Proof.
  intros [(w1 & [] & Hsys%syscall_fs & Hf) | (e' & Hsys%syscall_fs & _)]%bind_inv;
    [|done].
  unfold fs_update in Hf. destruct (f (fs w1)); by simplify_eq.
Qed.

Lemma open_rb_inv p w w' data mode :
  open_rb p w = (w', Ok (data, mode)) ->
  fs w' = fs w /\ fs w !! p = Some (File data mode).
Proof.
  intros H. pose proof (open_rb_fs _ _ _ _ H) as [Hfs _]. split; [done|].
  apply bind_inv in H as [(w1 & [] & Hsys%syscall_fs & Hq) | (e & _ & [=])].
  unfold fs_query in Hq. rewrite Hsys in Hq.
  destruct (fs w !! p) as [[?|? ?]|]; by simplify_eq.
Qed.

Lemma open_wb_inv p data w w' :
  open_wb p data w = (w', Ok tt) ->
  is_dir (fs w) p = false /\
  exists mode, fs w' = <[p := File data mode]> (fs w) /\
    (forall old m, fs w !! p = Some (File old m) -> mode = m).
Proof.
  intros [(w1 & [] & Hsys%syscall_fs & H) | (e & _ & [=])]%bind_inv.
  unfold is_dir. rewrite Hsys in H.
  destruct (fs w !! p) as [[?|? ?]|]; simplify_eq; (split; [done|]);
    eexists; (split; [done|]); congruence.
Qed.

Lemma open_wb_other p data w w' r q :
  open_wb p data w = (w', r) -> q <> p -> fs w' !! q = fs w !! q.
Proof.
  intros [(w1 & [] & Hsys%syscall_fs & H) | (e & Hsys%syscall_fs & _)]%bind_inv Hq;
    [|by rewrite Hsys].
  rewrite <- Hsys.
  destruct (fs w1 !! p) as [[?|? ?]|]; simplify_eq; simpl; try done;
    by rewrite lookup_insert_ne.
Qed.

Lemma os_chmod_inv p mode w w' data old :
  os_chmod p mode w = (w', Ok tt) -> fs w !! p = Some (File data old) ->
  fs w' = <[p := File data mode]> (fs w).
Proof. intros H%sys_update_inv Hp. rewrite Hp in H. by simplify_eq. Qed.

Lemma os_remove_inv p w w' :
  os_remove p w = (w', Ok tt) ->
  fs w' = delete p (fs w) /\ exists data mode, fs w !! p = Some (File data mode).
Proof.
  intros H%sys_update_inv.
  destruct (fs w !! p) as [[?|? ?]|]; simplify_eq. eauto.
Qed.

Lemma rename_effect_file src dst m m' data mode :
  m !! src = Some (File data mode) -> is_dir m dst = false ->
  rename_effect src dst m = Ok m' ->
  m' = <[dst := File data mode]> (delete src m).
Proof.
  unfold rename_effect, is_dir. intros -> Hdst.
  destruct (m !! dst) as [[?|? ?]|]; by intros [= <-].
Qed.

(** [shutil.move] of a regular file to a path that is not a directory. *)
Lemma shutil_move_inv src dst w w' data mode :
  shutil_move src dst w = (w', Ok tt) ->
  fs w !! src = Some (File data mode) -> is_dir (fs w) dst = false ->
  fs w' = <[dst := File data mode]> (delete src (fs w)).
Proof.
  unfold shutil_move. rewrite (bind_ok _ _ _ _ _ (isdir_run dst w)).
  intros H Hsrc Hdst. rewrite Hdst in H. unfold io_bind at 1, io_ret at 1 in H.
  destruct (os_rename src dst w) as [w1 [[]|e]] eqn:Erename.
  - injection H as <-. apply sys_update_inv in Erename.
    by apply (rename_effect_file src dst).
  - apply sys_update_raise in Erename. apply sys_update_inv in H.
    rewrite Erename in H. by apply (rename_effect_file src dst).
Qed.

(** [shutil.copy] to a path that is not a directory. *)
Lemma shutil_copy_inv src dst w w' :
  shutil_copy src dst w = (w', Ok tt) -> is_dir (fs w) dst = false ->
  exists data mode,
    fs w !! src = Some (File data mode) /\ fs w' = <[dst := File data mode]> (fs w).
Proof.
  unfold shutil_copy. rewrite (bind_ok _ _ _ _ _ (isdir_run dst w)).
  intros H Hdst. rewrite Hdst in H.
  destruct (String.eqb src dst); [done|].
  apply bind_inv in H as [(w1 & [data mode] & [Hw1 Hsrc]%open_rb_inv & H) | (e & _ & [=])].
  apply bind_inv in H as [(w2 & [] & Hwrite & H) | (e & _ & [=])].
  apply open_wb_inv in Hwrite as (_ & mode0 & Hw2 & _). simpl in *.
  exists data, mode. split; [done|].
  rewrite (os_chmod_inv dst mode w2 w' data mode0 H).
  - by rewrite Hw2, Hw1, insert_insert_eq.
  - rewrite Hw2. apply lookup_insert_eq.
Qed.

Lemma patch_plist_inv self path revert w w' fmt fields mode :
  patch_plist self path revert w = (w', Ok tt) ->
  fs w !! path = Some (File (PlistFile fmt (VDict fields)) mode) ->
  fs w' = <[path := File (PlistFile FMT_XML
              (VDict (<["CFBundleSignature" := VStr (signature_of self revert)]> fields)))
              mode]> (fs w).
Proof.
  unfold patch_plist. intros H Hp.
  apply bind_inv in H as [(w1 & [data m] & [Hw1 Hdata]%open_rb_inv & H) | (e & _ & [=])].
  rewrite Hp in Hdata. injection Hdata as <- <-. simpl in H.
  unfold io_bind at 1, io_lift at 1 in H.
  assert (open_wb path
            (plistlib_dump
               (VDict (<["CFBundleSignature" := VStr (signature_of self revert)]> fields)))
            w1 = (w', Ok tt)) as Hwrite by (by destruct revert).
  apply open_wb_inv in Hwrite as (_ & mode' & Hw' & Hmode).
  rewrite Hw1 in Hw', Hmode. by rewrite Hw', (Hmode _ _ Hp).
Qed.

Lemma get_executable_value path w w' v fmt fields mode raw :
  get_executable path w = (w', Ok v) ->
  fs w !! path = Some (File (PlistFile fmt (VDict fields)) mode) ->
  fields !! "CFBundleExecutable" = Some raw ->
  _sanitize_executable raw = Ok v.
Proof.
  unfold get_executable. intros H Hp Hraw.
  apply bind_inv in H as [(w1 & [data m] & [Hw1 Hdata]%open_rb_inv & H) | (e & _ & [=])].
  rewrite Hp in Hdata. injection Hdata as <- <-.
  unfold io_bind, io_lift in H. simpl in H.
  rewrite bool_decide_true in H by (rewrite Hraw; eauto).
  rewrite Hraw in H. by injection H.
Qed.

(** [shutil.make_archive] writes one file, the archive, next to the path it
    is given. *)
Lemma make_archive_other base_name root_dir base_dir w w' r q :
  shutil_make_archive base_name root_dir base_dir w = (w', r) ->
  q <> base_name +:+ ".zip" -> fs w' !! q = fs w !! q.
Proof.
  unfold shutil_make_archive. intros H Hq.
  apply bind_inv in H as [(w1 & [] & Hfirst & H) | (e & Hfirst & _)];
    [|by apply (open_wb_other _ _ _ _ _ q) in Hfirst].
  apply (open_wb_other _ _ _ _ _ q) in Hfirst; [|done]. rewrite <- Hfirst.
  unfold io_bind at 1, os_path_exists at 1, fs_query at 1 in H.
  destruct (negb _); [by injection H as <- _|].
  unfold io_bind at 1, fs_query at 1 in H.
  apply bind_inv in H as [(w2 & [] & Hsecond & H) | (e & Hsecond & _)];
    [injection H as <- _|]; by apply (open_wb_other _ _ _ _ _ q) in Hsecond.
Qed.

Lemma make_archive_inv base_name root_dir base_dir w w' zip_filename :
  shutil_make_archive base_name root_dir base_dir w = (w', Ok zip_filename) ->
  zip_filename = base_name +:+ ".zip" /\
  exists mode m,
    (forall q, q <> zip_filename -> m !! q = fs w !! q) /\
    fs w' = <[zip_filename := File (ZipArchive (archive_members root_dir base_dir m))
                                   mode]> m.
Proof.
  unfold shutil_make_archive. intros H.
  apply bind_inv in H as [(w1 & [] & Hfirst & H) | (e & _ & [=])].
  unfold io_bind at 1, os_path_exists at 1, fs_query at 1 in H.
  destruct (negb _); [done|].
  unfold io_bind at 1, fs_query at 1 in H.
  apply bind_inv in H as [(w2 & [] & Hsecond & H) | (e & _ & [=])].
  injection H as <- <-. split; [done|].
  apply open_wb_inv in Hsecond as (_ & mode & Hw2 & _).
  exists mode, (fs w1). split; [|done].
  intros q Hq. by apply (open_wb_other _ _ _ _ _ q) in Hfirst.
Qed.

(** ** The repack step *)

Lemma zip_name_neq (path : string) : path <> path +:+ ".zip".
Proof. by intros H%sapp_eq_self. Qed.

(** C2, as the code has it: the repack step deletes the archive first; the
    rebuilt archive is then written at the path with ".zip" appended, and
    moved to the path of the archive once the rebuild has succeeded. While
    it is rebuilt, and when the rebuild fails, no file is at the path of the
    archive. *)
Theorem repack_deletes_then_rebuilds path tmp_dir w w1 :
  os_remove path w = (w1, Ok tt) ->
  fs w1 !! path = None /\
  (forall w2 e,
     shutil_make_archive path tmp_dir "Payload" w1 = (w2, Raise e) ->
     patch_ipa_repack path tmp_dir w = (w2, Raise e) /\ fs w2 !! path = None) /\
  (forall w2 zip_filename w3,
     shutil_make_archive path tmp_dir "Payload" w1 = (w2, Ok zip_filename) ->
     shutil_move zip_filename path w2 = (w3, Ok tt) ->
     zip_filename = path +:+ ".zip" /\
     exists members mode,
       fs w2 !! zip_filename = Some (File (ZipArchive members) mode) /\
       fs w2 !! path = None /\
       patch_ipa_repack path tmp_dir w = (w3, Ok tt) /\
       fs w3 !! path = Some (File (ZipArchive members) mode) /\
       fs w3 !! zip_filename = None).
Proof.
  intros Hremove.
  assert (fs w1 !! path = None) as Hgone.
  { apply os_remove_inv in Hremove as [-> _]. apply lookup_delete_eq. }
  split; [done|]. split.
  - intros w2 e Hmake. split.
    + unfold patch_ipa_repack. rewrite (bind_ok _ _ _ _ _ Hremove).
      by rewrite (bind_raise _ _ _ _ _ Hmake).
    + rewrite (make_archive_other _ _ _ _ _ _ path Hmake); [done|apply zip_name_neq].
  - intros w2 zip_filename w3 Hmake Hmove.
    pose proof Hmake as (-> & mode & m & Hm & Hw2)%make_archive_inv.
    split; [done|]. exists (archive_members tmp_dir "Payload" m), mode.
    assert (fs w2 !! (path +:+ ".zip")
            = Some (File (ZipArchive (archive_members tmp_dir "Payload" m)) mode))
      as Hzip by (rewrite Hw2; apply lookup_insert_eq).
    assert (fs w2 !! path = None) as Hfree
      by (rewrite (make_archive_other _ _ _ _ _ _ path Hmake);
          [done | apply zip_name_neq]).
    split; [done|]. split; [done|]. split.
    + unfold patch_ipa_repack. rewrite (bind_ok _ _ _ _ _ Hremove).
      by rewrite (bind_ok _ _ _ _ _ Hmake).
    + rewrite (shutil_move_inv _ _ _ _ _ _ Hmove Hzip)
        by (unfold is_dir; by rewrite Hfree).
      split; [apply lookup_insert_eq|].
      rewrite lookup_insert_ne by apply zip_name_neq. apply lookup_delete_eq.
Qed.

Lemma repack_deletes_then_rebuilds_witness :
  fs (fst (os_remove "/app.ipa" demo_world)) !! "/app.ipa" = None.
Proof.
  apply (repack_deletes_then_rebuilds "/app.ipa" "/tmp/tmpk3x0a9qz" demo_world
           (fst (os_remove "/app.ipa" demo_world))).
  by vm_compute.
Defined.

(** C2 as stated fails: with a directory in the way of the rebuilt archive,
    the swap goes through and the archive is deleted, then the rebuild
    raises; the caller is left without the archive and without a
    replacement. *)
Lemma patch_ipa_rebuild_failure_loses_archive :
  is_Some (fs blocked_world !! "/app.ipa") /\
  (exists w1 w2,
     patch_ipa_swap demo_hook "/app.ipa" "/tmp/tmpk3x0a9qz"
       (fst (mkdtemp blocked_world)) = (w1, Ok true) /\
     os_remove "/app.ipa" w1 = (w2, Ok tt) /\
     snd (shutil_make_archive "/app.ipa" "/tmp/tmpk3x0a9qz" "Payload" w2)
       = Raise IsADirectoryError) /\
  snd (patch_ipa demo_hook "/app.ipa" blocked_world) = Raise IsADirectoryError /\
  fs (fst (patch_ipa demo_hook "/app.ipa" blocked_world)) !! "/app.ipa" = None /\
  fs (fst (patch_ipa demo_hook "/app.ipa" blocked_world)) !! "/app.ipa.zip"
    = Some (Dir 493).
Proof.
  split; [by eexists|]. split; [|by vm_compute].
  eexists (fst (patch_ipa_swap demo_hook "/app.ipa" "/tmp/tmpk3x0a9qz"
                  (fst (mkdtemp blocked_world)))),
          (fst (os_remove "/app.ipa"
                  (fst (patch_ipa_swap demo_hook "/app.ipa" "/tmp/tmpk3x0a9qz"
                          (fst (mkdtemp blocked_world)))))).
  by vm_compute.
Qed.

(** ** The swap *)

Lemma join_plain (a b : string) :
  plain_dir a -> startswith "/" b = false -> os_path_join a b = a +:+ "/" +:+ b.
Proof.
  intros [Hne Hslash] Hb. unfold os_path_join. rewrite Hb, Hslash.
  apply String.eqb_neq in Hne. by rewrite Hne.
Qed.

Lemma clean_not_absolute (b : string) :
  contains "/" b = false -> startswith "/" b = false.
Proof.
  intros Hb. destruct (startswith "/" b) eqn:E; [|done].
  apply startswith_sep_contains in E. congruence.
Qed.

Lemma plain_child (a b : string) :
  b <> "" -> contains "/" b = false -> plain_dir (a +:+ "/" +:+ b).
Proof.
  intros Hne Hclean. split.
  - destruct a; [done | by str_simpl].
  - rewrite <- sapp_assoc, endswith_app by done.
    destruct (endswith "/" b) eqn:E; [|done].
    apply endswith_sep_contains in E. congruence.
Qed.

Lemma sapp_eq_app (a b c d : string) :
  a +:+ b = c +:+ d ->
  (exists e, a = c +:+ e /\ d = e +:+ b) \/ (exists e, c = a +:+ e /\ b = e +:+ d).
Proof.
  revert c. induction a as [|x a IH]; intros c H; str_simpl.
  - right. by exists c.
  - destruct c as [|y c]; str_simpl.
    + left. by exists (String x a).
    + injection H as -> H. destruct (IH _ H) as [[e [-> ->]] | [e [-> ->]]].
      * left. by exists e.
      * right. by exists e.
Qed.

(** The rebuilt archive is not written into the scratch directory, when the
    archive itself does not lie there. *)
Lemma zip_name_outside (tmp_dir path : string) :
  is_within tmp_dir path = false ->
  startswith (tmp_dir +:+ "/") (path +:+ ".zip") = false.
Proof.
  intros Hout. destruct (startswith _ _) eqn:E; [|done].
  apply startswith_spec in E as [r Hr].
  assert (startswith (tmp_dir +:+ "/") path = false) as Hpath
    by (unfold is_within in Hout; by apply orb_false_iff in Hout as [_ ?]).
  apply sapp_eq_app in Hr as [[e [-> _]] | [e [Hdir Hzip]]].
  - by rewrite startswith_app in Hpath.
  - assert (endswith "/" (path +:+ e) = true) as Hend.
    { rewrite <- Hdir. apply endswith_spec. by exists tmp_dir. }
    destruct e as [|c1 e].
    + rewrite sapp_nil_r in Hdir. subst path.
      rewrite <- (sapp_nil_r (tmp_dir +:+ "/")) in Hpath at 2.
      by rewrite startswith_app in Hpath.
    + rewrite endswith_app in Hend by done.
      destruct e as [|c2 [|c3 [|c4 [|c5 e]]]]; str_simpl; simplify_eq; done.
Qed.

Lemma under_tmp_neq (tmp_dir path key : string) :
  is_within tmp_dir path = false ->
  startswith (tmp_dir +:+ "/") key = true ->
  key <> path /\ key <> path +:+ ".zip".
Proof.
  intros Hout Hkey. split; intros ->.
  - unfold is_within in Hout. apply orb_false_iff in Hout as [_ Hout]. congruence.
  - rewrite zip_name_outside in Hkey; done.
Qed.

Lemma archive_members_in root_dir base_dir (m : gmap string node) key data mode :
  m !! key = Some (File data mode) ->
  is_within (os_path_join root_dir base_dir) key = true ->
  In (slice_from (String.length root_dir + 1) key, mode, data)
     (archive_members root_dir base_dir m).
Proof.
  intros Hkey Hin. unfold archive_members.
  apply in_map_iff. exists (key, File data mode). split; [done|].
  apply filter_In. split; [|done].
  by apply list_elem_of_In, elem_of_map_to_list.
Qed.



(** ** What the extraction leaves in the scratch tree *)

Lemma os_mkdir_keeps p mode w w' r q n :
  os_mkdir p mode w = (w', r) -> fs w !! q = Some n -> fs w' !! q = Some n.
Proof.
  intros [(w1 & [] & Hsys%syscall_fs & H) | (e & Hsys%syscall_fs & _)]%bind_inv Hq;
    [|by rewrite Hsys].
  rewrite <- Hsys in Hq.
  destruct (fs w1 !! p) eqn:E; simplify_eq; [done|]. simpl.
  rewrite lookup_insert_ne; [done|]. intros ->. congruence.
Qed.

Lemma makedirs_unfold d parts w :
  makedirs d parts w
  = ((fun w0 => match fs w0 !! d with
                | Some (File _ _) => io_raise NotADirectoryError w0
                | Some (Dir _) => io_ret tt w0
                | None => os_mkdir d o777 w0
                end) >>
     match parts with
     | [] => io_ret tt
     | part :: parts' => makedirs (os_path_join d part) parts'
     end) w.
Proof. by destruct parts; cbn; unfold io_bind; cbn; destruct (fs w !! d) as [[?|? ?]|]. Qed.

Lemma makedirs_keeps parts d w w' r q n :
  makedirs d parts w = (w', r) -> fs w !! q = Some n -> fs w' !! q = Some n.
Proof.
  revert d w. induction parts as [|part parts IH]; intros d w;
    rewrite makedirs_unfold; intros H Hq;
    (assert (forall w1 r1,
               match fs w !! d with
               | Some (File _ _) => io_raise NotADirectoryError w
               | Some (Dir _) => io_ret tt w
               | None => os_mkdir d o777 w
               end = (w1, r1) -> fs w1 !! q = Some n) as Hensure
       by (intros w1 r1; destruct (fs w !! d) as [[?|? ?]|];
           [by intros [= <- _] | by intros [= <- _] |
            intros Hmk; by apply (os_mkdir_keeps _ _ _ _ _ q n) in Hmk]));
    (apply bind_inv in H as [(w1 & [] & Hfirst & Hrest) | (e & Hfirst & _)];
     [apply Hensure in Hfirst | by eapply Hensure]).
  - by injection Hrest as <- _.
  - by eapply IH.
Qed.

Lemma extract_member_keeps dir member w w' r q n :
  extract_member dir member w = (w', r) -> fs w !! q = Some n ->
  member_target dir (fst (fst member)) <> q -> fs w' !! q = Some n.
Proof.
  unfold extract_member. intros H Hq Hne.
  assert (forall w1 r1,
            match member_parts (fst (fst member)) with
            | [] => io_ret tt
            | _ :: _ => makedirs dir (List.removelast (member_parts (fst (fst member))))
            end w = (w1, r1) -> fs w1 !! q = Some n) as Hdirs.
  { intros w1 r1. destruct (member_parts _); [by intros [= <- _]|].
    intros Hmk. by apply (makedirs_keeps _ _ _ _ _ q n) in Hmk. }
  apply bind_inv in H as [(w1 & [] & Hfirst & H) | (e & Hfirst & _)];
    [|by eapply Hdirs].
  apply Hdirs in Hfirst. destruct (endswith "/" _).
  - rewrite (bind_ok _ _ _ _ _ (isdir_run _ w1)) in H.
    destruct (is_dir _ _); [by injection H as <- _|].
    by apply (os_mkdir_keeps _ _ _ _ _ q n) in H.
  - by rewrite (open_wb_other _ _ _ _ _ q H).
Qed.

Lemma extract_member_writes dir member w w' :
  extract_member dir member w = (w', Ok tt) ->
  endswith "/" (fst (fst member)) = false ->
  exists mode, fs w' !! member_target dir (fst (fst member)) = Some (File (snd member) mode).
Proof.
  unfold extract_member. intros H Hfile. rewrite Hfile in H.
  apply bind_inv in H as [(w1 & [] & _ & H) | (e & _ & [=])].
  apply open_wb_inv in H as (_ & mode & -> & _). exists mode. apply lookup_insert_eq.
Qed.

Lemma extractall_keeps dir (zf : list (string * N * file_data)) w w' r q n :
  for_each zf (extract_member dir) w = (w', r) -> fs w !! q = Some n ->
  Forall (fun member => member_target dir (fst (fst member)) <> q) zf ->
  fs w' !! q = Some n.
Proof.
  revert w. induction zf as [|member zf IH]; intros w; simpl.
  - by intros [= <- _].
  - intros H Hq [Hne Hzf]%Forall_cons.
    apply bind_inv in H as [(w1 & [] & Hfirst & H) | (e & Hfirst & _)].
    + apply (IH w1); [done| |done]. by eapply extract_member_keeps.
    + by eapply extract_member_keeps.
Qed.

Lemma extractall_content dir before member after w w' :
  for_each (before ++ member :: after) (extract_member dir) w = (w', Ok tt) ->
  endswith "/" (fst (fst member)) = false ->
  Forall (fun later => member_target dir (fst (fst later))
                       <> member_target dir (fst (fst member))) after ->
  exists mode, fs w' !! member_target dir (fst (fst member)) = Some (File (snd member) mode).
Proof.
  revert w. induction before as [|m before IH]; intros w; simpl.
  - intros [(w1 & [] & Hfirst & H) | (e & _ & [=])]%bind_inv Hfile Hafter.
    destruct (extract_member_writes _ _ _ _ Hfirst Hfile) as [mode Hmode].
    exists mode. by apply (extractall_keeps dir after w1 w' (Ok tt)).
  - intros [(w1 & [] & _ & H) | (e & _ & [=])]%bind_inv. by apply (IH w1).
Qed.

Lemma safe_extract_content archive_path dir w w' zf amode before member after :
  _safe_extract_zip archive_path dir w = (w', Ok tt) ->
  fs w !! archive_path = Some (File (ZipArchive zf) amode) ->
  zf = before ++ member :: after ->
  endswith "/" (fst (fst member)) = false ->
  Forall (fun later => member_target dir (fst (fst later))
                       <> member_target dir (fst (fst member))) after ->
  exists mode, fs w' !! member_target dir (fst (fst member)) = Some (File (snd member) mode).
Proof.
  unfold _safe_extract_zip. unfold io_bind at 1, realpath at 1.
  intros [(w1 & zf' & Hzip & H) | (e & _ & [=])]%bind_inv Harchive -> Hfile Hafter.
  unfold ZipFile in Hzip.
  apply bind_inv in Hzip
    as [(w2 & [data mode] & [_ Hopen]%open_rb_inv & Hzip) | (e & _ & [=])].
  rewrite Harchive in Hopen. injection Hopen as <- <-. injection Hzip as _ <-.
  apply bind_inv in H as [(w3 & [] & _ & H) | (e & _ & [=])].
  by apply (extractall_content dir before member after w3).
Qed.

Lemma archive_file_extracted archive_path dir w w' zf amode key data :
  _safe_extract_zip archive_path dir w = (w', Ok tt) ->
  fs w !! archive_path = Some (File (ZipArchive zf) amode) ->
  archive_file zf dir key data ->
  exists mode, fs w' !! key = Some (File data mode).
Proof.
  intros Hextract Harchive (before & filename & fmode & after & Hzf & Hfile & <- & Hafter).
  by apply (safe_extract_content archive_path dir w w' zf amode before
              (filename, fmode, data) after).
Qed.

Lemma repack_inv path tmp_dir w w' :
  patch_ipa_repack path tmp_dir w = (w', Ok tt) ->
  exists mode m,
    (forall q, q <> path -> q <> path +:+ ".zip" -> m !! q = fs w !! q) /\
    fs w' !! path
    = Some (File (ZipArchive (archive_members tmp_dir "Payload" m)) mode).
Proof.
  unfold patch_ipa_repack. intros H.
  apply bind_inv in H as [(w1 & [] & [Hw1 _]%os_remove_inv & H) | (e & _ & [=])].
  apply bind_inv in H as [(w2 & z & Hmake & Hmove) | (e & _ & [=])].
  pose proof Hmake as (-> & mode & m & Hm & Hw2)%make_archive_inv.
  exists mode, m. split.
  - intros q Hq Hz. rewrite Hm, Hw1 by done. by apply lookup_delete_ne.
  - assert (fs w2 !! path = None) as Hfree.
    { rewrite (make_archive_other _ _ _ _ _ _ path Hmake) by apply zip_name_neq.
      rewrite Hw1. apply lookup_delete_eq. }
    rewrite (shutil_move_inv _ _ _ _
               (ZipArchive (archive_members tmp_dir "Payload" m)) mode Hmove).
    + apply lookup_insert_eq.
    + rewrite Hw2. apply lookup_insert_eq.
    + unfold is_dir. by rewrite Hfree.
Qed.

Lemma member_of_bundle (tmp_dir app s : string) (m : gmap string node) data mode :
  plain_dir tmp_dir ->
  m !! (((tmp_dir +:+ "/" +:+ "Payload") +:+ "/" +:+ app) +:+ "/" +:+ s)
    = Some (File data mode) ->
  In ("Payload/" +:+ app +:+ "/" +:+ s, mode, data)
     (archive_members tmp_dir "Payload" m).
Proof.
  intros Hplain Hkey.
  apply (archive_members_in tmp_dir "Payload") in Hkey.
  - replace (String.length tmp_dir + 1) with (String.length (tmp_dir +:+ "/")) in Hkey
      by (rewrite sapp_length; simpl; lia).
    rewrite !sapp_assoc, <- (sapp_assoc tmp_dir "/"), slice_from_app in Hkey.
    by rewrite <- (sapp_assoc "Payload" "/") in Hkey.
  - rewrite join_plain by done. apply is_within_spec. right.
    exists (app +:+ "/" +:+ s). by rewrite !sapp_assoc.
Qed.



(** * Further properties of the module *)

(** ** The sanitizer on the values a property list can hold *)

Lemma sanitize_falsy (v : plist_value) :
  py_bool v = false -> _sanitize_executable v = Ok (VStr "").
Proof. intros H. unfold _sanitize_executable. by rewrite H. Qed.

Lemma sanitize_returns (v r : plist_value) :
  _sanitize_executable v = Ok r -> r = VStr "" \/ r = v.
Proof.
  unfold _sanitize_executable, os_path_sep, os_path_altsep.
  destruct (negb (py_bool v) || _); [intros [= <-]; by left|].
  destruct (py_in "/" v) as [[]|]; simpl; [intros [= <-]; by left| |done].
  destruct (py_in ".." v) as [[]|]; simpl; [intros [= <-]; by left| |done].
  intros [= <-]. by right.
Qed.

(** X1: [_sanitize_executable] on any value of a property list. A value
    Python takes for false gives ''; a non-zero integer, [True] and
    non-empty bytes raise [TypeError] (they have no [in]); whatever is
    returned is '' or the value itself; and a non-empty string that is
    returned is the value and passes the four checks. *)
Theorem sanitize_executable_any_value (v : plist_value) :
  (py_bool v = false -> _sanitize_executable v = Ok (VStr "")) /\
  (forall z, v = VInt z -> z <> 0%Z -> _sanitize_executable v = Raise TypeError) /\
  (v = VBool true -> _sanitize_executable v = Raise TypeError) /\
  (forall b, v = VData b -> b <> [] -> _sanitize_executable v = Raise TypeError) /\
  (forall r, _sanitize_executable v = Ok r -> r = VStr "" \/ r = v) /\
  (forall s, _sanitize_executable v = Ok (VStr s) -> s <> "" ->
     v = VStr s /\ ~ rejected_name s).
Proof.
  split; [apply sanitize_falsy|].
  split.
  { intros z -> Hz. unfold _sanitize_executable. simpl.
    by apply Z.eqb_neq in Hz as ->. }
  split; [by intros ->|].
  split; [intros b -> Hb; by destruct b|].
  split; [apply sanitize_returns | apply sanitize_output].
Qed.

Lemma sanitize_executable_any_value_witness :
  _sanitize_executable (VInt 7) = Raise TypeError.
Proof.
  apply (proj1 (proj2 (sanitize_executable_any_value (VInt 7))) 7%Z); done.
Defined.

(** ** The bundle locator reads and does not write *)

(** X2: [get_executable] never writes: whatever it returns or raises, the
    file system is as before. What it returns is '' or, unchanged, the value
    the descriptor holds under [CFBundleExecutable]; in the second case the
    file is a property list whose root is a mapping. *)
Theorem get_executable_reads_only path w w' r :
  get_executable path w = (w', r) ->
  fs w' = fs w /\
  (forall v, r = Ok v -> v <> VStr "" ->
     exists fmt fields mode,
       fs w !! path = Some (File (PlistFile fmt (VDict fields)) mode) /\
       fields !! "CFBundleExecutable" = Some v).
Proof.
  unfold get_executable. intros H.
  apply bind_inv in H as [(w1 & [data mode] & Hopen & H) | (e & Hopen & ->)].
  2:{ split; [by apply open_rb_fs in Hopen as [? _] | done]. }
  apply open_rb_inv in Hopen as [Hw1 Hfile]. simpl in H.
  assert (fs w' = fs w /\
          (forall v, r = Ok v -> v <> VStr "" ->
             exists fmt fields, data = PlistFile fmt (VDict fields) /\
               fields !! "CFBundleExecutable" = Some v)) as [Hfs Hval].
  { unfold io_lift, io_bind, io_ret in H.
    destruct (plistlib_load data) as [root|] eqn:Hload; [|by injection H as <- <-].
    destruct (py_in "CFBundleExecutable" root) as [[]|] eqn:Hin;
      [| injection H as <- <-; split; [done | by intros v [= <-]]
       | by injection H as <- <-].
    destruct (py_getitem root "CFBundleExecutable") as [raw|] eqn:Hget;
      [|by injection H as <- <-].
    injection H as <- <-. split; [done|]. intros v Hv Hne.
    destruct (sanitize_returns _ _ Hv) as [-> | ->]; [done|].
    destruct data as [|fmt root'|]; try done. injection Hload as ->.
    destruct root as [| | | | |fields]; try done. simpl in Hget.
    exists fmt, fields. split; [done|].
    destruct (fields !! "CFBundleExecutable"); by simplify_eq. }
  split; [done|]. intros v Hv Hne.
  destruct (Hval v Hv Hne) as (fmt & fields & -> & Hfield). by exists fmt, fields, mode.
Qed.

Lemma get_executable_reads_only_witness :
  fs (fst (get_executable "/Info.plist" demo_world)) = fs demo_world /\
  (forall v, snd (get_executable "/Info.plist" demo_world) = Ok v -> v <> VStr "" ->
     exists fmt fields mode,
       fs demo_world !! "/Info.plist" = Some (File (PlistFile fmt (VDict fields)) mode) /\
       fields !! "CFBundleExecutable" = Some v).
Proof.
  apply (get_executable_reads_only "/Info.plist" demo_world). by vm_compute.
Defined.

(** ** The tagger on what is not a descriptor *)



(** ** Tagging twice *)



(** ** The archive guard: what it lets through *)

Lemma sep_join_app (a b : list string) :
  a <> [] -> b <> [] ->
  sep_join "/" (a ++ b) = sep_join "/" a +:+ "/" +:+ sep_join "/" b.
Proof.
  intros Ha Hb. induction a as [|x a IH]; [done|].
  destruct a as [|y a].
  - destruct b; [done|]. reflexivity.
  - change (sep_join "/" ((x :: y :: a) ++ b))
      with (x +:+ "/" +:+ sep_join "/" ((y :: a) ++ b)).
    rewrite IH by done.
    change (sep_join "/" (x :: y :: a)) with (x +:+ "/" +:+ sep_join "/" (y :: a)).
    by rewrite !sapp_assoc.
Qed.

Lemma beneath_startswith (cwd dir p : string) :
  os_path_realpath cwd dir <> "/" ->
  strictly_beneath (os_path_realpath cwd dir) (os_path_realpath cwd p) ->
  startswith (os_path_realpath cwd dir +:+ "/") (os_path_realpath cwd p) = true.
Proof.
  destruct (realpath_shape cwd dir) as (bparts & Hb & ->).
  destruct (realpath_shape cwd p) as (tparts & Ht & ->).
  intros Hroot (rest & Hrest & Heq).
  rewrite !path_parts_absolute in Heq by done. subst tparts.
  assert (bparts <> []) as Hne by (intros ->; by apply Hroot).
  rewrite sep_join_app by done.
  apply startswith_spec. exists (sep_join "/" rest). by rewrite !sapp_assoc.
Qed.

Lemma safe_names_pass (base : string) (names : list string) w :
  (forall member, In member names ->
     startswith (base +:+ os_path_sep)
       (os_path_realpath (cwd w) (os_path_join base member)) = true) ->
  for_each names (fun member =>
    let* target := realpath (os_path_join base member) in
    if negb (startswith (base +:+ os_path_sep) target)
    then io_raise (RuntimeError "Unsafe path in archive")
    else io_ret tt) w
  = (w, Ok tt).
Proof.
  induction names as [|name names IH]; intros Hall; [done|].
  simpl. unfold io_bind at 1. unfold io_bind at 1. unfold realpath at 1.
  rewrite (Hall name) by (by left). simpl. apply IH. intros member Hin.
  apply Hall. by right.
Qed.

Lemma open_rb_world (p : string) w data mode :
  head (faults w) <> Some true -> fs w !! p = Some (File data mode) ->
  open_rb p w = (with_faults (tail (faults w)) w, Ok (data, mode)).
Proof.
  intros Hfault Hfile. unfold open_rb, io_bind, syscall, fs_query.
  destruct w as [m c u t n fl]. simpl in *.
  destruct fl as [|[] rest]; [|done|]; unfold with_faults; simpl; by rewrite Hfile.
Qed.

(** X5: the guard refuses no archive that is safe. When the archive opens,
    the target directory is not the root and every member resolves to a
    path strictly beneath the target directory, the check passes and
    [_safe_extract_zip] is [extractall] on the archive: the outcome and the
    file system are those of the extraction. *)
Theorem safe_extract_accepts_safe_archive archive_path extract_dir w members mode :
  head (faults w) <> Some true ->
  fs w !! archive_path = Some (File (ZipArchive members) mode) ->
  os_path_realpath (cwd w) extract_dir <> "/" ->
  (forall member, In member (namelist members) ->
     strictly_beneath (os_path_realpath (cwd w) extract_dir)
       (resolved_destination w extract_dir member)) ->
  _safe_extract_zip archive_path extract_dir w
  = extractall members extract_dir (with_faults (tail (faults w)) w).
Proof.
  intros Hfault Hfile Hroot Hsafe. unfold _safe_extract_zip.
  unfold io_bind at 1. unfold realpath at 1.
  unfold ZipFile. unfold io_bind at 1. unfold io_bind at 1.
  rewrite (open_rb_world _ _ _ _ Hfault Hfile). simpl.
  unfold io_ret at 1. erewrite bind_ok; [done|].
  apply safe_names_pass. intros member Hin. simpl.
  apply beneath_startswith; [done|]. by apply Hsafe.
Qed.

Lemma safe_extract_accepts_safe_archive_witness :
  _safe_extract_zip "/app.ipa" "/tmp" demo_world
  = extractall demo_members "/tmp" (with_faults (tail (faults demo_world)) demo_world).
Proof.
  apply (safe_extract_accepts_safe_archive "/app.ipa" "/tmp" demo_world
           demo_members 420%N); try by vm_compute.
  intros member Hin. simpl in Hin.
  destruct Hin as [<- | [<- | [<- | [<- | []]]]].
  - exists ["Payload"]. by vm_compute.
  - exists ["Payload"; "Demo.app"]. by vm_compute.
  - exists ["Payload"; "Demo.app"; "Info.plist"]. by vm_compute.
  - exists ["Payload"; "Demo.app"; "Demo"]. by vm_compute.
Defined.

(** X6: extraction into the root directory is refused. The prefix the
    guard tests is the resolved target directory followed by a separator,
    "//" for the root, and no resolved path starts with it: every archive
    with at least one member is rejected, and nothing is written. *)
Theorem safe_extract_into_root_rejects archive_path extract_dir w members mode :
  head (faults w) <> Some true ->
  fs w !! archive_path = Some (File (ZipArchive members) mode) ->
  os_path_realpath (cwd w) extract_dir = "/" ->
  members <> [] ->
  exists w',
    _safe_extract_zip archive_path extract_dir w = (w', Raise UnsafeArchiveEntry) /\
    fs w' = fs w.
Proof.
  intros Hfault Hfile Hroot Hmembers.
  exists (with_faults (tail (faults w)) w). split; [|done].
  unfold _safe_extract_zip. unfold io_bind at 1. unfold realpath at 1.
  unfold ZipFile. unfold io_bind at 1. unfold io_bind at 1.
  rewrite (open_rb_world _ _ _ _ Hfault Hfile). simpl.
  unfold io_ret at 1. erewrite bind_raise; [done|].
  apply unsafe_name_raises.
  destruct members as [|[[name fmode] data] members]; [done|].
  exists name. split; [by left|].
  change (cwd (with_faults (tail (faults w)) w)) with (cwd w). rewrite Hroot.
  destruct (realpath_shape (cwd w) (os_path_join "/" name)) as (parts & Hparts & ->).
  destruct Hparts as [|part parts [Hne Hclean] _]; [done|].
  destruct part as [|c part]; [done|].
  assert (Ascii.eqb "/" c = false) as Hc.
  { apply Ascii.eqb_neq. intros <-. by rewrite contains_sep_cons in Hclean. }
  unfold os_path_sep.
  destruct parts; cbn [sep_join]; str_simpl; cbn [startswith]; by rewrite Hc.
Qed.

Lemma safe_extract_into_root_rejects_witness :
  exists w',
    _safe_extract_zip "/app.ipa" "/" demo_world = (w', Raise UnsafeArchiveEntry) /\
    fs w' = fs demo_world.
Proof.
  apply (safe_extract_into_root_rejects "/app.ipa" "/" demo_world demo_members 420%N);
    by vm_compute.
Defined.



(** ** The pipeline: what it can touch *)

Lemma os_remove_other p w w' r q :
  os_remove p w = (w', r) -> q <> p -> fs w' !! q = fs w !! q.
Proof.
  intros H Hq. destruct r as [[]|e].
  - apply os_remove_inv in H as [-> _]. by apply lookup_delete_ne.
  - by rewrite (sys_update_raise _ _ _ _ H).
Qed.

(** [shutil.move] of a regular file to a path that is not a directory,
    however it ends. *)
Lemma shutil_move_other src dst w w' r data mode q :
  shutil_move src dst w = (w', r) ->
  fs w !! src = Some (File data mode) -> is_dir (fs w) dst = false ->
  q <> src -> q <> dst -> fs w' !! q = fs w !! q.
Proof.
  intros H Hsrc Hdst Hq1 Hq2. destruct r as [[]|e].
  - rewrite (shutil_move_inv _ _ _ _ _ _ H Hsrc Hdst).
    by rewrite lookup_insert_ne, lookup_delete_ne.
  - unfold shutil_move in H. rewrite (bind_ok _ _ _ _ _ (isdir_run dst w)) in H.
    rewrite Hdst in H. unfold io_bind at 1, io_ret at 1 in H.
    destruct (os_rename src dst w) as [w1 [[]|e1]] eqn:Erename; [done|].
    apply sys_update_raise in Erename. apply sys_update_raise in H. congruence.
Qed.

Lemma repack_other path tmp_dir w w' r q :
  patch_ipa_repack path tmp_dir w = (w', r) ->
  q <> path -> q <> path +:+ ".zip" -> fs w' !! q = fs w !! q.
Proof.
  unfold patch_ipa_repack. intros H Hq Hz.
  apply bind_inv in H as [(w1 & [] & Hremove & H) | (e & Hremove & _)];
    [|by apply (os_remove_other _ _ _ _ q) in Hremove].
  rewrite <- (os_remove_other _ _ _ _ q Hremove Hq).
  apply os_remove_inv in Hremove as [Hw1 _].
  apply bind_inv in H as [(w2 & z & Hmake & Hmove) | (e & Hmake & _)];
    [|by apply (make_archive_other _ _ _ _ _ _ q) in Hmake].
  rewrite <- (make_archive_other _ _ _ _ _ _ q Hmake Hz).
  pose proof Hmake as (-> & mode & m & Hm & Hw2)%make_archive_inv.
  apply (shutil_move_other _ _ _ _ _
           (ZipArchive (archive_members tmp_dir "Payload" m)) mode q Hmove);
    [ rewrite Hw2; apply lookup_insert_eq | | done | done ].
  unfold is_dir.
  rewrite (make_archive_other _ _ _ _ _ _ path Hmake) by apply zip_name_neq.
  by rewrite Hw1, lookup_delete_eq.
Qed.

(** X8: [patch_ipa] touches the archive and nothing else. However the call
    ends, and whatever fails on the way, every path other than the archive
    and the archive's path followed by ".zip" is as before the call: the
    scratch directory is gone, the two binaries it injects are unchanged. *)
Theorem patch_ipa_touches_only_archive self path w w' r q :
  fs_wf (fs w) -> tmp_names_ok w ->
  patch_ipa self path w = (w', r) ->
  q <> path -> q <> path +:+ ".zip" ->
  fs w' !! q = fs w !! q.
Proof.
  intros Hwf Hnames Hrun Hq Hz. unfold patch_ipa, with_TemporaryDirectory in Hrun.
  destruct (mkdtemp w) as [w0 [tmp_dir|e]] eqn:Hmk.
  2:{ injection Hrun as <- _.
      apply mkdtemp_inv in Hmk as [_ [(? & _ & ->) | (? & ? & [=] & _)]]; done. }
  apply mkdtemp_inv in Hmk
    as [_ [(? & [=] & _) | (? & tmode & [= <-] & Hplain & Hfree & Hw0)]]; [|done].
  destruct (io_bind _ _ w0) as [w5 r5] eqn:Hbody. injection Hrun as <- _.
  assert (forall p, is_within tmp_dir p = false -> fs w5 !! p = fs w0 !! p ->
            fs (rmtree tmp_dir w5) !! p = fs w !! p) as Hback.
  { intros p Hp Hsame. rewrite rmtree_outside, Hsame, Hw0 by done.
    apply lookup_insert_ne. intros <-. by rewrite is_within_refl in Hp. }
  destruct (is_within tmp_dir q) eqn:Hin.
  { unfold rmtree. simpl. rewrite filter_lookup_drop by done.
    symmetry. apply (free_path_empty (fs w) tmp_dir); done || apply Hplain. }
  apply Hback; [done|].
  apply bind_inv in Hbody as [(w4 & go_on & Hswap & Hrest) | (e & Hswap & _)].
  - destruct (confined_patch_ipa_swap self path tmp_dir Hplain _ _ _ Hswap) as [Hout _].
    rewrite <- (Hout q Hin). destruct go_on.
    + by apply (repack_other path tmp_dir w4 w5 r5).
    + by injection Hrest as <- _.
  - destruct (confined_patch_ipa_swap self path tmp_dir Hplain _ _ _ Hswap) as [Hout _].
    by apply Hout.
Qed.

Lemma patch_ipa_touches_only_archive_witness :
  fs (fst (patch_ipa demo_hook "/app.ipa" demo_world)) !! "/tmp/tmpk3x0a9qz"
  = fs demo_world !! "/tmp/tmpk3x0a9qz".
Proof.
  apply (patch_ipa_touches_only_archive demo_hook "/app.ipa" demo_world
           (fst (patch_ipa demo_hook "/app.ipa" demo_world))
           (snd (patch_ipa demo_hook "/app.ipa" demo_world)) "/tmp/tmpk3x0a9qz");
    by vm_compute.
Defined.

(** ** The rebuilt archive *)




(** ** Permission bits through the extraction *)

Lemma mode_kept_refl w w' q : fs w' = fs w -> mode_kept w w' q.
Proof.
  intros H. unfold mode_kept. rewrite H.
  destruct (fs w !! q) as [[?|? ?]|]; eauto. done.
Qed.

Lemma mode_kept_trans w w1 w2 q :
  umask w1 = umask w -> mode_kept w w1 q -> mode_kept w1 w2 q -> mode_kept w w2 q.
Proof.
  unfold mode_kept, masked. intros Hmask H1 H2.
  destruct (fs w !! q) as [[md|d m]|].
  - by rewrite H1 in H2.
  - destruct H1 as [d1 H1]. by rewrite H1 in H2.
  - destruct (fs w1 !! q) as [[md|d1 m1]|] eqn:E1.
    + intros data mode. by rewrite H2.
    + destruct H2 as [d2 H2]. intros data mode. rewrite H2. intros [= _ <-].
      by eapply H1.
    + intros data mode Hq. rewrite <- Hmask. by eapply H2.
Qed.

Lemma keeps_ret {A} (a : A) : keeps_modes (io_ret a).
Proof. intros w w' r [= <- _]. split; [done|]. intros q. by apply mode_kept_refl. Qed.

Lemma keeps_raise {A} e : keeps_modes (@io_raise A e).
Proof. intros w w' r [= <- _]. split; [done|]. intros q. by apply mode_kept_refl. Qed.

Lemma keeps_fs_query {A} (f : gmap string node -> result A) : keeps_modes (fs_query f).
Proof. intros w w' r [= <- _]. split; [done|]. intros q. by apply mode_kept_refl. Qed.

Lemma keeps_realpath p : keeps_modes (realpath p).
Proof. intros w w' r [= <- _]. split; [done|]. intros q. by apply mode_kept_refl. Qed.

Lemma keeps_syscall : keeps_modes syscall.
Proof.
  intros w w' r H. unfold syscall in H.
  destruct (faults w) as [|[] rest]; injection H as <- _;
    (split; [done|]); intros q; by apply mode_kept_refl.
Qed.

Lemma keeps_bind {A B} (c : io A) (k : A -> io B) :
  keeps_modes c -> (forall a, keeps_modes (k a)) -> keeps_modes (io_bind c k).
Proof.
  intros Hc Hk w w' r H.
  apply bind_inv in H as [(w1 & a & H1 & H2) | (e & H1 & _)]; [|by eapply Hc].
  destruct (Hc _ _ _ H1) as [Hm1 Hq1]. destruct (Hk a _ _ _ H2) as [Hm2 Hq2].
  split; [congruence|]. intros q. by apply (mode_kept_trans w w1 w').
Qed.

Lemma keeps_for_each {A} (items : list A) (body : A -> io unit) :
  (forall x, keeps_modes (body x)) -> keeps_modes (for_each items body).
Proof.
  intros Hbody. induction items as [|x items IH]; [apply keeps_ret|].
  simpl. apply keeps_bind; [apply Hbody | by intros _].
Qed.

Lemma keeps_open_rb p : keeps_modes (open_rb p).
Proof. apply keeps_bind; [apply keeps_syscall | intros _; apply keeps_fs_query]. Qed.

Lemma keeps_mkdir p mode : keeps_modes (os_mkdir p mode).
Proof.
  apply keeps_bind; [apply keeps_syscall | intros _].
  intros w w' r H. destruct (fs w !! p) as [n|] eqn:E; injection H as <- _.
  - split; [done|]. intros q. by apply mode_kept_refl.
  - split; [done|]. intros q. unfold mode_kept. simpl.
    destruct (decide (q = p)) as [->|Hq].
    + rewrite E, lookup_insert_eq. by intros data m.
    + rewrite lookup_insert_ne by done.
      destruct (fs w !! q) as [[?|? ?]|]; eauto. done.
Qed.

Lemma keeps_open_wb p data : keeps_modes (open_wb p data).
Proof.
  apply keeps_bind; [apply keeps_syscall | intros _].
  intros w w' r H.
  assert (forall m, fs w !! p = None \/ (exists old, fs w !! p = Some (File old m)) ->
            (m = masked o666 w \/ exists old, fs w !! p = Some (File old m)) ->
            forall q, mode_kept w (with_fs (<[p := File data m]> (fs w)) w) q) as Hwrite.
  { intros m Hp Hm q. unfold mode_kept. simpl.
    destruct (decide (q = p)) as [->|Hq].
    - rewrite lookup_insert_eq.
      destruct Hp as [Hp | [old Hp]]; rewrite Hp.
      + intros ? ? [= _ Heq]. rewrite <- Heq.
        destruct Hm as [Hdef | [old' Hold]]; [done | congruence].
      + by eexists.
    - rewrite lookup_insert_ne by done.
      destruct (fs w !! q) as [[?|? ?]|]; eauto. done. }
  destruct (fs w !! p) as [[md|old m]|] eqn:E; injection H as <- _;
    (split; [done|]).
  - intros q. by apply mode_kept_refl.
  - apply Hwrite; right; by exists old.
  - apply Hwrite; by left.
Qed.

Lemma keeps_makedirs parts : forall d, keeps_modes (makedirs d parts).
Proof.
  assert (forall d, keeps_modes
            (let* found := fs_query (fun m => Ok (m !! d)) in
             match found with
             | Some (File _ _) => io_raise NotADirectoryError
             | Some (Dir _) => io_ret tt
             | None => os_mkdir d o777
             end)) as Hstep.
  { intros d. apply keeps_bind; [apply keeps_fs_query | intros [[?|? ?]|]];
      auto using keeps_ret, keeps_raise, keeps_mkdir. }
  induction parts as [|part parts IH]; intros d.
  - apply (keeps_bind _ (fun _ => io_ret tt)); [apply Hstep | intros ?; apply keeps_ret].
  - apply (keeps_bind _ (fun _ => makedirs (os_path_join d part) parts));
      [apply Hstep | intros ?; apply IH].
Qed.

Lemma keeps_extract_member dir member : keeps_modes (extract_member dir member).
Proof.
  unfold extract_member. apply keeps_bind.
  - destruct (member_parts _); [apply keeps_ret | apply keeps_makedirs].
  - intros _. destruct (endswith _ _); [|apply keeps_open_wb].
    apply keeps_bind; [apply keeps_fs_query|].
    intros []; [apply keeps_ret | apply keeps_mkdir].
Qed.

Lemma keeps_safe_extract archive_path dir :
  keeps_modes (_safe_extract_zip archive_path dir).
Proof.
  unfold _safe_extract_zip. apply keeps_bind; [apply keeps_realpath | intros base].
  apply keeps_bind.
  { apply keeps_bind; [apply keeps_open_rb | intros [[| |members] mode]]; simpl;
      auto using keeps_ret, keeps_raise. }
  intros zf. apply keeps_bind.
  - apply keeps_for_each. intros member.
    apply keeps_bind; [apply keeps_realpath | intros target].
    destruct (negb _); [apply keeps_raise | apply keeps_ret].
  - intros _. apply keeps_for_each. intros member. apply keeps_extract_member.
Qed.

(** X10: the permission bits recorded in the archive are not restored.
    However [_safe_extract_zip] ends, a file found afterwards has the bits it
    had before the call or, where the call created it, the default bits
    [0o666 & ~umask]: not those of its member. *)
Theorem safe_extract_ignores_member_modes archive_path extract_dir w w' r q data mode :
  _safe_extract_zip archive_path extract_dir w = (w', r) ->
  fs w' !! q = Some (File data mode) ->
  (exists old, fs w !! q = Some (File old mode)) \/
  (fs w !! q = None /\ mode = N.ldiff o666 (umask w)).
Proof.
  intros Hrun Hq. destruct (keeps_safe_extract _ _ _ _ _ Hrun) as [_ Hkept].
  specialize (Hkept q). unfold mode_kept in Hkept.
  destruct (fs w !! q) as [[md|old m]|].
  - congruence.
  - left. destruct Hkept as [d Hd]. exists old. congruence.
  - right. split; [done|]. by apply (Hkept data).
Qed.

Lemma safe_extract_ignores_member_modes_witness :
  (exists old, fs demo_world !! "/tmp/Payload/Demo.app/Demo" = Some (File old 420%N)) \/
  (fs demo_world !! "/tmp/Payload/Demo.app/Demo" = None /\
   420%N = N.ldiff o666 (umask demo_world)).
Proof.
  apply (safe_extract_ignores_member_modes "/app.ipa" "/tmp" demo_world
           (fst (_safe_extract_zip "/app.ipa" "/tmp" demo_world))
           (snd (_safe_extract_zip "/app.ipa" "/tmp" demo_world))
           "/tmp/Payload/Demo.app/Demo" (Raw [xca; xfe; xba; xbe]) 420%N);
    by vm_compute.
Defined.

(** ** The rest of the bundle *)

Lemma mkdtemp_loop_umask names : forall w w' r,
  mkdtemp_loop names w = (w', r) -> umask w' = umask w.
Proof.
  induction names as [|name names IH]; intros w w' r H; simpl in H.
  - by injection H as <- _.
  - destruct (os_mkdir _ _ _) as [w1 r1] eqn:Hmk.
    destruct (keeps_mkdir _ _ _ _ _ Hmk) as [Hmask _]. simpl in Hmask.
    destruct r1 as [[]|e]; [by injection H as <- _|].
    destruct e; try (by injection H as <- _).
    apply IH in H. congruence.
Qed.

(** The swap writes four paths of the bundle and no other; the executable
    is then under its name followed by ".hooked". *)
Lemma swap_other self path tmp_dir w0 w1 w4 go_on app rest name fmt fields pmode
    original omode q :
  plain_dir tmp_dir ->
  _safe_extract_zip path tmp_dir w0 = (w1, Ok tt) ->
  patch_ipa_swap self path tmp_dir w0 = (w4, Ok go_on) ->
  is_dir (fs w1) (tmp_dir +:+ "/" +:+ "Payload") = true ->
  List.filter (fun file => endswith ".app" file)
    (dir_entries (fs w1) (tmp_dir +:+ "/" +:+ "Payload")) = app :: rest ->
  fs w1 !! (((tmp_dir +:+ "/" +:+ "Payload") +:+ "/" +:+ app) +:+ "/" +:+ "Info.plist")
    = Some (File (PlistFile fmt (VDict fields)) pmode) ->
  fields !! "CFBundleExecutable" = Some (VStr name) -> ~ rejected_name name ->
  fs w1 !! (((tmp_dir +:+ "/" +:+ "Payload") +:+ "/" +:+ app) +:+ "/" +:+ name)
    = Some (File original omode) ->
  name <> "Info.plist" ->
  is_dir (fs w1)
    (((tmp_dir +:+ "/" +:+ "Payload") +:+ "/" +:+ app) +:+ "/" +:+ name +:+ ".hooked")
    = false ->
  is_dir (fs w1) (((tmp_dir +:+ "/" +:+ "Payload") +:+ "/" +:+ app) +:+ "/" +:+ "mussel")
    = false ->
  q <> ((tmp_dir +:+ "/" +:+ "Payload") +:+ "/" +:+ app) +:+ "/" +:+ "Info.plist" ->
  q <> ((tmp_dir +:+ "/" +:+ "Payload") +:+ "/" +:+ app) +:+ "/" +:+ name ->
  q <> ((tmp_dir +:+ "/" +:+ "Payload") +:+ "/" +:+ app) +:+ "/" +:+ name +:+ ".hooked" ->
  q <> ((tmp_dir +:+ "/" +:+ "Payload") +:+ "/" +:+ app) +:+ "/" +:+ "mussel" ->
  go_on = true /\
  fs w4 !! (((tmp_dir +:+ "/" +:+ "Payload") +:+ "/" +:+ app) +:+ "/" +:+ name +:+ ".hooked")
    = Some (File original omode) /\
  fs w4 !! q = fs w1 !! q.
Proof.
  intros Hplain Hextract Hswap Hdir Happ Hplist Hfield Haccept Hexe Hne1
    Hhooked Hhelper HqP HqE HqH HqM.
  assert (In app (dir_entries (fs w1) (tmp_dir +:+ "/" +:+ "Payload"))) as Hin.
  { eapply (proj1 (filter_In _ _ _)). rewrite Happ. by left. }
  apply dir_entries_inv in Hin as (_ & Happ_ne & Happ_clean).
  destruct (accepted_name_clean name Haccept) as [Hname_ne Hname_clean].
  assert (contains "/" (name +:+ ".hooked") = false) as Hhooked_clean
    by (by rewrite contains_sep_app, Hname_clean).
  assert (plain_dir (tmp_dir +:+ "/" +:+ "Payload")) as Hplain1 by (by apply plain_child).
  assert (plain_dir ((tmp_dir +:+ "/" +:+ "Payload") +:+ "/" +:+ app)) as Hplain2
    by (by apply plain_child).
  set (bundle := (tmp_dir +:+ "/" +:+ "Payload") +:+ "/" +:+ app) in *.
  set (kP := bundle +:+ "/" +:+ "Info.plist") in *.
  set (kE := bundle +:+ "/" +:+ name) in *.
  set (kH := bundle +:+ "/" +:+ name +:+ ".hooked") in *.
  set (kM := bundle +:+ "/" +:+ "mussel") in *.
  assert (kE <> kP) as HEP by (intros H; by apply sapp_inv_head, sapp_inv_head in H).
  assert (kH <> kE) as HHE.
  { intros H. apply sapp_inv_head, sapp_inv_head in H. symmetry in H.
    by apply sapp_eq_self in H. }
  assert (forall s, endswith ".hooked" s = false -> kH <> bundle +:+ "/" +:+ s) as Hsuffix.
  { intros s Hs H. apply sapp_inv_head, sapp_inv_head in H.
    rewrite (proj2 (endswith_spec ".hooked" s)) in Hs; [done | by exists name]. }
  assert (kH <> kP) as HHP by (by apply Hsuffix).
  assert (kH <> kM) as HHM by (by apply Hsuffix).
  assert (kM <> kP) as HMP by (intros H; by apply sapp_inv_head, sapp_inv_head in H).
  unfold patch_ipa_swap in Hswap.
  rewrite (bind_ok _ _ _ _ _ Hextract) in Hswap.
  rewrite (join_plain tmp_dir "Payload") in Hswap by done.
  rewrite (bind_ok _ _ _ _ _ (isdir_run _ w1)), Hdir in Hswap. simpl in Hswap.
  apply bind_inv in Hswap
    as [(wa & listing & (Hwa & -> & _)%os_listdir_inv & Hswap) | (e & _ & [=])].
  rewrite Happ in Hswap.
  rewrite (join_plain _ app) in Hswap by (done || by apply clean_not_absolute).
  fold bundle in Hswap.
  rewrite !(join_plain bundle) in Hswap by (done || by apply clean_not_absolute).
  fold kP kM in Hswap.
  apply bind_inv in Hswap as [(wb & v & Hget & Hswap) | (e & _ & [=])].
  pose proof (get_executable_inv _ _ _ _ Hget) as [Hwb _].
  rewrite <- Hwa in Hplist.
  pose proof (get_executable_value _ _ _ _ _ _ _ _ Hget Hplist Hfield) as Hv.
  rewrite sanitize_accepted in Hv by done. injection Hv as <-.
  assert (py_bool (VStr name) = true) as Htruth
    by (simpl; by apply negb_true_iff, String.eqb_neq).
  rewrite Htruth in Hswap. simpl in Hswap.
  rewrite !(join_plain bundle) in Hswap by (done || by apply clean_not_absolute).
  fold kE kH in Hswap.
  apply bind_inv in Hswap as [(wc & [] & Htag & Hswap) | (e & _ & [=])].
  rewrite <- Hwb in Hplist.
  pose proof (patch_plist_inv _ _ _ _ _ _ _ _ Htag Hplist) as Hwc. simpl in Hwc.
  rewrite Hwb, Hwa in Hwc.
  apply bind_inv in Hswap as [(wd & [] & Hmove & Hswap) | (e & _ & [=])].
  assert (fs wd = <[kH := File original omode]> (delete kE (fs wc))) as Hwd.
  { apply (shutil_move_inv _ _ _ _ _ _ Hmove).
    - rewrite Hwc. by rewrite lookup_insert_ne.
    - unfold is_dir. rewrite Hwc. by rewrite lookup_insert_ne. }
  apply bind_inv in Hswap as [(we & [] & Hcopy1 & Hswap) | (e & _ & [=])].
  apply shutil_copy_inv in Hcopy1 as (data1 & mode1 & _ & Hwe).
  2:{ unfold is_dir. rewrite Hwd. rewrite lookup_insert_ne by done.
      by rewrite lookup_delete_eq. }
  apply bind_inv in Hswap as [(wf & [] & Hcopy2 & Hswap) | (e & _ & [=])].
  destruct (decide (kM = kE)) as [HME | HME].
  - (* the executable is called "mussel" *)
    apply shutil_copy_inv in Hcopy2 as (data2 & mode2 & _ & Hwf).
    2:{ unfold is_dir. rewrite Hwe, HME. by rewrite lookup_insert_eq. }
    apply bind_inv in Hswap as [(wg & [] & Hchmod1 & Hswap) | (e & _ & [=])].
    apply (os_chmod_inv _ _ _ _ data2 mode2) in Hchmod1 as Hwg.
    2:{ rewrite Hwf, HME. apply lookup_insert_eq. }
    apply bind_inv in Hswap as [(wh & [] & Hchmod2 & Hswap) | (e & _ & [=])].
    apply (os_chmod_inv _ _ _ _ data2 o777) in Hchmod2 as Hwh.
    2:{ rewrite Hwg, HME. apply lookup_insert_eq. }
    injection Hswap as <- <-. split; [done|].
    rewrite Hwh, Hwg, Hwf, Hwe, Hwd, Hwc. split.
    + rewrite !lookup_insert_ne by congruence. apply lookup_insert_eq.
    + by rewrite !lookup_insert_ne, lookup_delete_ne, lookup_insert_ne.
  - apply shutil_copy_inv in Hcopy2 as (data2 & mode2 & _ & Hwf).
    2:{ unfold is_dir in *. rewrite Hwe, Hwd, Hwc.
        by rewrite !lookup_insert_ne, lookup_delete_ne, lookup_insert_ne. }
    apply bind_inv in Hswap as [(wg & [] & Hchmod1 & Hswap) | (e & _ & [=])].
    apply (os_chmod_inv _ _ _ _ data1 mode1) in Hchmod1 as Hwg.
    2:{ rewrite Hwf, Hwe. rewrite lookup_insert_ne by done. apply lookup_insert_eq. }
    apply bind_inv in Hswap as [(wh & [] & Hchmod2 & Hswap) | (e & _ & [=])].
    apply (os_chmod_inv _ _ _ _ data2 mode2) in Hchmod2 as Hwh.
    2:{ rewrite Hwg, Hwf. rewrite lookup_insert_ne by done. apply lookup_insert_eq. }
    injection Hswap as <- <-. split; [done|].
    rewrite Hwh, Hwg, Hwf, Hwe, Hwd, Hwc. split.
    + rewrite !lookup_insert_ne by congruence. apply lookup_insert_eq.
    + by rewrite !lookup_insert_ne, lookup_delete_ne, lookup_insert_ne.
Qed.

Lemma member_of_payload (tmp_dir rest : string) (m : gmap string node) data mode :
  plain_dir tmp_dir ->
  m !! ((tmp_dir +:+ "/" +:+ "Payload") +:+ "/" +:+ rest) = Some (File data mode) ->
  In ("Payload/" +:+ rest, mode, data) (archive_members tmp_dir "Payload" m).
Proof.
  intros Hplain Hkey.
  apply (archive_members_in tmp_dir "Payload") in Hkey.
  - replace (String.length tmp_dir + 1) with (String.length (tmp_dir +:+ "/")) in Hkey
      by (rewrite sapp_length; simpl; lia).
    rewrite !sapp_assoc, <- (sapp_assoc tmp_dir "/"), slice_from_app in Hkey.
    by rewrite <- (sapp_assoc "Payload" "/") in Hkey.
  - rewrite join_plain by done. apply is_within_spec. right. by exists rest.
Qed.

(** X11: the rest of the bundle comes through. On a well-formed target,
    after [patch_ipa] returned normally, every other file that the archive
    held under [Payload] (other than the descriptor, the executable and the
    two names the pipeline writes) is a member of the rebuilt archive under
    its name, byte for byte; its permission bits are [0o666 & ~umask],
    whatever bits the archive recorded for it. *)
Theorem patch_ipa_keeps_other_files self path w w0 tmp_dir w1 w' zf amode
    app name fields original rest data :
  fs_wf (fs w) -> tmp_names_ok w ->
  fs w !! path = Some (File (ZipArchive zf) amode) ->
  mkdtemp w = (w0, Ok tmp_dir) ->
  _safe_extract_zip path tmp_dir w0 = (w1, Ok tt) ->
  well_formed_target zf w1 tmp_dir app name fields original ->
  patch_ipa self path w = (w', Ok tt) ->
  archive_file zf tmp_dir ((tmp_dir +:+ "/" +:+ "Payload") +:+ "/" +:+ rest) data ->
  rest <> app +:+ "/" +:+ "Info.plist" ->
  rest <> app +:+ "/" +:+ name ->
  rest <> app +:+ "/" +:+ name +:+ ".hooked" ->
  rest <> app +:+ "/" +:+ "mussel" ->
  exists members zmode,
    fs w' !! path = Some (File (ZipArchive members) zmode) /\
    In ("Payload/" +:+ rest, N.ldiff o666 (umask w), data) members.
Proof.
  intros Hwf Hnames Harchive Hmk Hextract Hwell Hrun Hfile HrP HrE HrH HrM.
  pose proof (mkdtemp_loop_umask _ _ _ _ Hmk) as Hmask.
  pose proof Hmk as Hmk'. apply mkdtemp_inv in Hmk'
    as [_ [(? & [=] & _) | (? & tmode & [= <-] & Hplain & Hfree & Hw0)]]; [|done].
  assert (forall p n, fs w !! p = Some n -> is_within tmp_dir p = false) as Hold.
  { intros p n Hp. destruct (is_within tmp_dir p) eqn:E; [|done].
    by rewrite (free_path_empty (fs w) tmp_dir p) in Hp by (done || apply Hplain). }
  assert (fs w0 !! path = Some (File (ZipArchive zf) amode)) as Harchive0.
  { rewrite Hw0, lookup_insert_ne; [done|]. intros <-. congruence. }
  pose proof (Hold _ _ Harchive) as Hpath.
  destruct Hwell as (Hdir & [others Happ] & (fmt & Hplist) & Hfield & Haccept
                     & Hexe & Hne1 & Hne2 & Hhooked & Hhelper).
  apply (archive_file_extracted path tmp_dir w0 w1 zf amode _ _ Hextract Harchive0)
    in Hplist as [pmode Hplist].
  apply (archive_file_extracted path tmp_dir w0 w1 zf amode _ _ Hextract Harchive0)
    in Hexe as [omode Hexe].
  apply (archive_file_extracted path tmp_dir w0 w1 zf amode _ _ Hextract Harchive0)
    in Hfile as [mode Hfile].
  set (key := (tmp_dir +:+ "/" +:+ "Payload") +:+ "/" +:+ rest) in *.
  assert (startswith (tmp_dir +:+ "/") key = true) as Hunder.
  { apply startswith_spec. eexists. subst key. rewrite !sapp_assoc. reflexivity. }
  (* the file is new in the scratch directory: it has the default bits *)
  assert (mode = N.ldiff o666 (umask w)) as ->.
  { destruct (keeps_safe_extract _ _ _ _ _ Hextract) as [_ Hkept].
    specialize (Hkept key). unfold mode_kept in Hkept.
    assert (fs w0 !! key = None) as Hnew.
    { rewrite Hw0, lookup_insert_ne.
      - apply (free_path_empty (fs w) tmp_dir); [done | apply Hplain | done |].
        unfold is_within. by rewrite Hunder, orb_true_r.
      - intros H. apply (f_equal String.length) in H. subst key.
        rewrite !sapp_length in H. simpl in H. lia. }
    rewrite Hnew in Hkept. rewrite (Hkept _ _ Hfile). unfold masked. by rewrite Hmask. }
  (* the paths of the bundle *)
  assert (In app (dir_entries (fs w1) (os_path_join tmp_dir "Payload"))) as Hin.
  { eapply (proj1 (filter_In _ _ _)). rewrite Happ. by left. }
  apply dir_entries_inv in Hin as (_ & Happ_ne & Happ_clean).
  destruct (accepted_name_clean name Haccept) as [Hname_ne Hname_clean].
  assert (contains "/" (name +:+ ".hooked") = false) as Hhooked_clean
    by (by rewrite contains_sep_app, Hname_clean).
  rewrite (join_plain tmp_dir "Payload") in * by done.
  assert (plain_dir (tmp_dir +:+ "/" +:+ "Payload")) as Hplain1 by (by apply plain_child).
  rewrite (join_plain _ app) in * by (done || by apply clean_not_absolute).
  assert (plain_dir ((tmp_dir +:+ "/" +:+ "Payload") +:+ "/" +:+ app)) as Hplain2
    by (by apply plain_child).
  rewrite !(join_plain ((tmp_dir +:+ "/" +:+ "Payload") +:+ "/" +:+ app)) in *
    by (done || by apply clean_not_absolute).
  assert (forall s, rest <> app +:+ "/" +:+ s ->
            key <> ((tmp_dir +:+ "/" +:+ "Payload") +:+ "/" +:+ app) +:+ "/" +:+ s)
    as Hother.
  { intros s Hs H. subst key. rewrite !sapp_assoc in H.
    by do 4 apply sapp_inv_head in H. }
  (* the run *)
  unfold patch_ipa, with_TemporaryDirectory in Hrun. rewrite Hmk in Hrun.
  destruct (io_bind _ _ w0) as [w5 r] eqn:Hbody. injection Hrun as <- ->.
  apply bind_inv in Hbody as [(w4 & go_on & Hswap & Hrepack) | (e & _ & [=])].
  destruct (swap_other self path tmp_dir w0 w1 w4 go_on app others name fmt fields
              pmode original omode key Hplain Hextract Hswap Hdir Happ Hplist Hfield
              Haccept Hexe Hne1 Hhooked Hhelper) as (-> & _ & Hsame); try by apply Hother.
  apply repack_inv in Hrepack as (zmode & m & Hm & Hnew).
  exists (archive_members tmp_dir "Payload" m), zmode.
  split; [by rewrite rmtree_outside|].
  apply member_of_payload; [done|]. fold key.
  rewrite Hm by (by apply (under_tmp_neq tmp_dir)). by rewrite Hsame.
Qed.

Lemma patch_ipa_keeps_other_files_witness :
  exists members zmode,
    fs (fst (patch_ipa demo_hook "/rich.ipa" rich_world)) !! "/rich.ipa"
    = Some (File (ZipArchive members) zmode) /\
    In ("Payload/" +:+ "Demo.app/Assets.car", N.ldiff o666 (umask rich_world),
        Raw [x0a; x0b]) members.
Proof.
  apply (patch_ipa_keeps_other_files demo_hook "/rich.ipa" rich_world
           (fst (mkdtemp rich_world)) "/tmp/tmpk3x0a9qz"
           (fst (_safe_extract_zip "/rich.ipa" "/tmp/tmpk3x0a9qz"
                   (fst (mkdtemp rich_world))))
           (fst (patch_ipa demo_hook "/rich.ipa" rich_world))
           rich_members 420%N
           "Demo.app" "Demo" demo_fields (Raw [xca; xfe; xba; xbe]));
    try by vm_compute.
  - unfold well_formed_target. split; [by vm_compute|].
    split; [eexists; by vm_compute|]. split.
    { exists FMT_BINARY,
        [("Payload/", 493%N, Raw []); ("Payload/Demo.app/", 493%N, Raw [])],
        "Payload/Demo.app/Info.plist", 420%N,
        [("Payload/Demo.app/Demo", 493%N, Raw [xca; xfe; xba; xbe]);
         ("Payload/Demo.app/Assets.car", 384%N, Raw [x0a; x0b]);
         ("Payload/Demo.app/Demo.hooked", 493%N, Raw [x0d; x0e]);
         ("iTunesMetadata.plist", 420%N, Raw [x3c])].
      repeat split; try by vm_compute.
      repeat constructor; by vm_compute. }
    split; [by vm_compute|].
    split; [intros Hrejected%rejected_name_spec; by vm_compute in Hrejected|].
    split.
    { exists [("Payload/", 493%N, Raw []); ("Payload/Demo.app/", 493%N, Raw []);
              ("Payload/Demo.app/Info.plist", 420%N, PlistFile FMT_BINARY demo_info)],
        "Payload/Demo.app/Demo", 493%N,
        [("Payload/Demo.app/Assets.car", 384%N, Raw [x0a; x0b]);
         ("Payload/Demo.app/Demo.hooked", 493%N, Raw [x0d; x0e]);
         ("iTunesMetadata.plist", 420%N, Raw [x3c])].
      repeat split; try by vm_compute.
      repeat constructor; by vm_compute. }
    repeat split; by vm_compute.
  - exists [("Payload/", 493%N, Raw []); ("Payload/Demo.app/", 493%N, Raw []);
            ("Payload/Demo.app/Info.plist", 420%N, PlistFile FMT_BINARY demo_info);
            ("Payload/Demo.app/Demo", 493%N, Raw [xca; xfe; xba; xbe])],
      "Payload/Demo.app/Assets.car", 384%N,
      [("Payload/Demo.app/Demo.hooked", 493%N, Raw [x0d; x0e]);
       ("iTunesMetadata.plist", 420%N, Raw [x3c])].
    repeat split; try by vm_compute.
    repeat constructor; by vm_compute.
Defined.

(** ** The constructor and the tag *)



(** ** What the extraction writes *)

(** X13: after [_safe_extract_zip] returned normally, every file member of
    the archive that no later member overwrites is found in the target
    directory, at the path its name resolves to, with the content the
    archive holds. *)
Theorem safe_extract_writes_members archive_path extract_dir w w' zf amode key data :
  plain_dir extract_dir ->
  _safe_extract_zip archive_path extract_dir w = (w', Ok tt) ->
  fs w !! archive_path = Some (File (ZipArchive zf) amode) ->
  archive_file zf extract_dir key data ->
  is_within extract_dir key = true /\
  exists mode, fs w' !! key = Some (File data mode).
Proof.
  intros Hplain Hrun Harchive Hfile. split.
  - destruct Hfile as (before & filename & fmode & after & _ & _ & <- & _).
    by apply member_target_within.
  - by apply (archive_file_extracted archive_path extract_dir w w' zf amode).
Qed.

Lemma safe_extract_writes_members_witness :
  is_within "/tmp" "/tmp/Payload/Demo.app/Demo" = true /\
  exists mode,
    fs (fst (_safe_extract_zip "/app.ipa" "/tmp" demo_world))
      !! "/tmp/Payload/Demo.app/Demo"
    = Some (File (Raw [xca; xfe; xba; xbe]) mode).
Proof.
  apply (safe_extract_writes_members "/app.ipa" "/tmp" demo_world
           (fst (_safe_extract_zip "/app.ipa" "/tmp" demo_world)) demo_members 420%N);
    try by vm_compute.
  exists [("Payload/", 493%N, Raw []); ("Payload/Demo.app/", 493%N, Raw []);
          ("Payload/Demo.app/Info.plist", 420%N, PlistFile FMT_BINARY demo_info)],
    "Payload/Demo.app/Demo", 493%N, [].
  repeat split; by vm_compute.
Defined.

(** ** Patching again *)

(** A member of the rebuilt archive whose name is not that of a directory
    is a file of the tree, under that name. *)
Lemma archive_members_file root_dir base_dir (m : gmap string node) name mode data :
  In (name, mode, data) (archive_members root_dir base_dir m) ->
  endswith "/" name = false ->
  startswith "/" base_dir = false -> plain_dir root_dir ->
  m !! (root_dir +:+ "/" +:+ name) = Some (File data mode).
Proof.
  intros Hin Hname Hbase Hplain. unfold archive_members in Hin.
  apply in_map_iff in Hin as ([key n] & Heq & Hin).
  apply filter_In in Hin as [Hin%list_elem_of_In%elem_of_map_to_list Hwithin].
  simpl in Hwithin. rewrite join_plain in Hwithin by done.
  assert (key = root_dir +:+ "/" +:+ slice_from (String.length root_dir + 1) key) as Hkey.
  { replace (String.length root_dir + 1) with (String.length (root_dir +:+ "/"))
      by (rewrite sapp_length; simpl; lia).
    apply is_within_spec in Hwithin as [-> | [r ->]];
      rewrite ?sapp_assoc, <- (sapp_assoc root_dir "/"), slice_from_app;
      by rewrite ?sapp_assoc. }
  unfold archive_member in Heq. simpl in Heq. destruct n as [dmode|fdata fmode].
  - injection Heq as <- _ _.
    rewrite (proj2 (endswith_spec "/" _)) in Hname; [done | by eexists].
  - injection Heq as <- <- <-. by rewrite <- Hkey.
Qed.

(** X14: the saved executable is overwritten. On a well-formed target,
    after [patch_ipa] returned normally, whatever the rebuilt archive holds
    under the name of the executable followed by ".hooked" is the content
    the archive held under the name of the executable: a file the archive
    already held under the ".hooked" name, such as the original saved by an
    earlier run, is not kept. *)
Theorem patch_ipa_overwrites_hooked self path w w0 tmp_dir w1 w' zf amode
    app name fields original :
  fs_wf (fs w) -> tmp_names_ok w ->
  fs w !! path = Some (File (ZipArchive zf) amode) ->
  mkdtemp w = (w0, Ok tmp_dir) ->
  _safe_extract_zip path tmp_dir w0 = (w1, Ok tt) ->
  well_formed_target zf w1 tmp_dir app name fields original ->
  patch_ipa self path w = (w', Ok tt) ->
  exists members zmode,
    fs w' !! path = Some (File (ZipArchive members) zmode) /\
    (exists mode,
       In ("Payload/" +:+ app +:+ "/" +:+ name +:+ ".hooked", mode, original) members) /\
    forall mode data,
      In ("Payload/" +:+ app +:+ "/" +:+ name +:+ ".hooked", mode, data) members ->
      data = original.
Proof.
  intros Hwf Hnames Harchive Hmk Hextract Hwell Hrun.
  pose proof Hmk as Hmk'. apply mkdtemp_inv in Hmk'
    as [_ [(? & [=] & _) | (? & tmode & [= <-] & Hplain & Hfree & Hw0)]]; [|done].
  assert (forall p n, fs w !! p = Some n -> is_within tmp_dir p = false) as Hold.
  { intros p n Hp. destruct (is_within tmp_dir p) eqn:E; [|done].
    by rewrite (free_path_empty (fs w) tmp_dir p) in Hp by (done || apply Hplain). }
  assert (fs w0 !! path = Some (File (ZipArchive zf) amode)) as Harchive0.
  { rewrite Hw0, lookup_insert_ne; [done|]. intros <-. congruence. }
  pose proof (Hold _ _ Harchive) as Hpath.
  destruct Hwell as (Hdir & [others Happ] & (fmt & Hplist) & Hfield & Haccept
                     & Hexe & Hne1 & Hne2 & Hhooked & Hhelper).
  apply (archive_file_extracted path tmp_dir w0 w1 zf amode _ _ Hextract Harchive0)
    in Hplist as [pmode Hplist].
  apply (archive_file_extracted path tmp_dir w0 w1 zf amode _ _ Hextract Harchive0)
    in Hexe as [omode Hexe].
  assert (In app (dir_entries (fs w1) (os_path_join tmp_dir "Payload"))) as Hin.
  { eapply (proj1 (filter_In _ _ _)). rewrite Happ. by left. }
  apply dir_entries_inv in Hin as (_ & Happ_ne & Happ_clean).
  destruct (accepted_name_clean name Haccept) as [Hname_ne Hname_clean].
  assert (contains "/" (name +:+ ".hooked") = false) as Hhooked_clean
    by (by rewrite contains_sep_app, Hname_clean).
  rewrite (join_plain tmp_dir "Payload") in * by done.
  assert (plain_dir (tmp_dir +:+ "/" +:+ "Payload")) as Hplain1 by (by apply plain_child).
  rewrite (join_plain _ app) in * by (done || by apply clean_not_absolute).
  assert (plain_dir ((tmp_dir +:+ "/" +:+ "Payload") +:+ "/" +:+ app)) as Hplain2
    by (by apply plain_child).
  rewrite !(join_plain ((tmp_dir +:+ "/" +:+ "Payload") +:+ "/" +:+ app)) in *
    by (done || by apply clean_not_absolute).
  unfold patch_ipa, with_TemporaryDirectory in Hrun. rewrite Hmk in Hrun.
  destruct (io_bind _ _ w0) as [w5 r] eqn:Hbody. injection Hrun as <- ->.
  apply bind_inv in Hbody as [(w4 & go_on & Hswap & Hrepack) | (e & _ & [=])].
  (* the swap leaves the root of the scratch directory alone: any path but
     the four it writes will do to read the lemma *)
  destruct (swap_other self path tmp_dir w0 w1 w4 go_on app others name fmt fields
              pmode original omode tmp_dir Hplain Hextract Hswap Hdir Happ Hplist
              Hfield Haccept Hexe Hne1 Hhooked Hhelper) as (-> & HkH & _);
    try (intros H; apply (f_equal String.length) in H;
         rewrite !sapp_length in H; simpl in H; lia).
  apply repack_inv in Hrepack as (zmode & m & Hm & Hnew).
  set (kH := ((tmp_dir +:+ "/" +:+ "Payload") +:+ "/" +:+ app) +:+ "/" +:+ name +:+ ".hooked")
    in *.
  assert (m !! kH = Some (File original omode)) as HmH.
  { rewrite Hm; [done | |]; apply (under_tmp_neq tmp_dir path kH Hpath);
      apply startswith_spec; eexists; subst kH; rewrite !sapp_assoc; reflexivity. }
  exists (archive_members tmp_dir "Payload" m), zmode.
  split; [by rewrite rmtree_outside|]. split.
  - exists omode. by apply member_of_bundle.
  - intros mode data Hmember.
    apply archive_members_file in Hmember; [| |done|done].
    + replace (tmp_dir +:+ "/" +:+ "Payload/" +:+ app +:+ "/" +:+ name +:+ ".hooked")
        with kH in Hmember by (subst kH; by rewrite !sapp_assoc).
      congruence.
    + rewrite <- !sapp_assoc. by rewrite endswith_app.
Qed.

Lemma patch_ipa_overwrites_hooked_witness :
  exists members zmode,
    fs (fst (patch_ipa demo_hook "/rich.ipa" rich_world)) !! "/rich.ipa"
    = Some (File (ZipArchive members) zmode) /\
    (exists mode,
       In ("Payload/" +:+ "Demo.app" +:+ "/" +:+ "Demo" +:+ ".hooked", mode,
           Raw [xca; xfe; xba; xbe]) members) /\
    forall mode data,
      In ("Payload/" +:+ "Demo.app" +:+ "/" +:+ "Demo" +:+ ".hooked", mode, data) members ->
      data = Raw [xca; xfe; xba; xbe].
Proof.
  apply (patch_ipa_overwrites_hooked demo_hook "/rich.ipa" rich_world
           (fst (mkdtemp rich_world)) "/tmp/tmpk3x0a9qz"
           (fst (_safe_extract_zip "/rich.ipa" "/tmp/tmpk3x0a9qz"
                   (fst (mkdtemp rich_world))))
           (fst (patch_ipa demo_hook "/rich.ipa" rich_world))
           rich_members 420%N "Demo.app" "Demo" demo_fields);
    try by vm_compute.
  unfold well_formed_target. split; [by vm_compute|].
  split; [eexists; by vm_compute|]. split.
  { exists FMT_BINARY,
      [("Payload/", 493%N, Raw []); ("Payload/Demo.app/", 493%N, Raw [])],
      "Payload/Demo.app/Info.plist", 420%N,
      [("Payload/Demo.app/Demo", 493%N, Raw [xca; xfe; xba; xbe]);
       ("Payload/Demo.app/Assets.car", 384%N, Raw [x0a; x0b]);
       ("Payload/Demo.app/Demo.hooked", 493%N, Raw [x0d; x0e]);
       ("iTunesMetadata.plist", 420%N, Raw [x3c])].
    repeat split; try by vm_compute.
    repeat constructor; by vm_compute. }
  split; [by vm_compute|].
  split; [intros Hrejected%rejected_name_spec; by vm_compute in Hrejected|].
  split.
  { exists [("Payload/", 493%N, Raw []); ("Payload/Demo.app/", 493%N, Raw []);
            ("Payload/Demo.app/Info.plist", 420%N, PlistFile FMT_BINARY demo_info)],
      "Payload/Demo.app/Demo", 493%N,
      [("Payload/Demo.app/Assets.car", 384%N, Raw [x0a; x0b]);
       ("Payload/Demo.app/Demo.hooked", 493%N, Raw [x0d; x0e]);
       ("iTunesMetadata.plist", 420%N, Raw [x3c])].
    repeat split; try by vm_compute.
    repeat constructor; by vm_compute. }
  repeat split; by vm_compute.
Defined.
